(** * The REST client of the dashboard: frontend/services/api_client.py

    A shallow embedding of [ApiClient] and of the Python operations it calls,
    and the properties of its error handling, payload construction and
    construction-time checks.

    Conventions of the embedding.
    - A Python [str] is a [string]; a character is the code point of the
      same number (U+0000 to U+00FF).
    - An [int] is a [Z].
    - A [requests.Response] is the record of the observations the client
      makes of it: [status_code], [text] and the outcome of [json()].
    - The session (connection pool, adapter, retries) is the world outside
      the client: an oracle from the request that is sent to what comes
      back.  The requests handed to the session are recorded in a log that
      every operation threads through.
    - Exceptions are values of [exn]; an operation yields [Return v] or
      [Raise e].  The calls to [logger] only write log lines and are not
      modelled.
    - The three operations are [async def]: what is modelled is the body
      that runs when the coroutine is awaited. *)

From Stdlib Require Import ZArith Ascii String List DecimalString Lia.
From stdpp Require Import base option gmap strings list fin_maps.

Local Open Scope string_scope.
Local Open Scope Z_scope.

#[local] Arguments String.append : simpl nomatch.

(** ** Python strings *)

Definition code (a : ascii) : N := N_of_ascii a.

Definition between (lo hi : N) (a : ascii) : bool :=
  ((lo <=? code a) && (code a <=? hi))%N.

(** [str.isspace] on one character: TAB to CR, FS to US, SPACE, NEL, NBSP. *)
Definition isspace (a : ascii) : bool :=
  between 9 13 a || between 28 32 a || (code a =? 133)%N || (code a =? 160)%N.

(** [str.isprintable] on one character. *)
Definition isprintable (a : ascii) : bool :=
  between 32 126 a || (between 161 255 a && negb (code a =? 173)%N).

Fixpoint contains (c : ascii) (s : string) : bool :=
  match s with
  | EmptyString => false
  | String a s' => Ascii.eqb a c || contains c s'
  end.

Fixpoint all_chars (p : ascii -> bool) (s : string) : bool :=
  match s with
  | EmptyString => true
  | String a s' => p a && all_chars p s'
  end.

(** [s.lstrip()] and [s.rstrip()] with the set of characters to remove given
    as a predicate. *)
Fixpoint lstrip_with (p : ascii -> bool) (s : string) : string :=
  match s with
  | EmptyString => EmptyString
  | String a s' => if p a then lstrip_with p s' else s
  end.

Fixpoint rstrip_with (p : ascii -> bool) (s : string) : string :=
  match s with
  | EmptyString => EmptyString
  | String a s' =>
      match rstrip_with p s' with
      | EmptyString => if p a then EmptyString else String a EmptyString
      | r => String a r
      end
  end.

(** [s.strip()]: whitespace removed at both ends. *)
Definition strip (s : string) : string :=
  rstrip_with isspace (lstrip_with isspace s).

(** [s.rstrip(chars)] *)
Definition rstrip (chars : string) (s : string) : string :=
  rstrip_with (fun a => contains a chars) s.

(** A run of [n] slashes. *)
Fixpoint slashes (n : nat) : string :=
  match n with
  | O => EmptyString
  | S n' => String "/" (slashes n')
  end.

(** Truth value of a [str]: false exactly for the empty string. *)
Definition truthy (s : string) : bool :=
  match s with
  | EmptyString => false
  | String _ _ => true
  end.

(** [str(n)] for an [int]. *)
Definition str_of_int (n : Z) : string :=
  NilZero.string_of_int (Z.to_int n).

(** ** Decoded JSON and its text form *)

#[local] Set Warnings "-register-all".

(** What [json()] yields.  A [float] is carried by its [repr]; the items of
    an object are in the order of the dict. *)
Inductive json : Type :=
| JNull
| JBool (b : bool)
| JInt (n : Z)
| JFloat (repr : string)
| JString (s : string)
| JArray (xs : list json)
| JObject (items : list (string * json)).

Definition hex_digit (n : N) : ascii :=
  ascii_of_N (if n <? 10 then 48 + n else 87 + n)%N.

Definition quote1 : ascii := "039"%char.
Definition quote2 : ascii := "034"%char.
Definition backslash : ascii := "092"%char.

Definition one (a : ascii) : string := String a EmptyString.

(** One character inside [repr(s)], [q] being the delimiter chosen. *)
Definition repr_char (q a : ascii) : string :=
  if Ascii.eqb a q || Ascii.eqb a backslash then String backslash (one a)
  else if Ascii.eqb a "009"%char then String backslash "t"
  else if Ascii.eqb a "010"%char then String backslash "n"
  else if Ascii.eqb a "013"%char then String backslash "r"
  else if isprintable a then one a
  else String backslash
         (String "x" (String (hex_digit (code a / 16)%N) (one (hex_digit (code a mod 16)%N)))).

Fixpoint repr_chars (q : ascii) (s : string) : string :=
  match s with
  | EmptyString => EmptyString
  | String a s' => repr_char q a +:+ repr_chars q s'
  end.

(** [repr(s)] for a [str]: single quotes, unless the string has a single
    quote and no double quote. *)
Definition repr_str (s : string) : string :=
  let q := if contains quote1 s && negb (contains quote2 s) then quote2 else quote1 in
  String q (repr_chars q s +:+ one q).

Fixpoint join (sep : string) (l : list string) : string :=
  match l with
  | [] => EmptyString
  | [x] => x
  | x :: l' => x +:+ sep +:+ join sep l'
  end.

(** [repr(v)] of a decoded value. *)
Fixpoint py_repr (v : json) : string :=
  match v with
  | JNull => "None"
  | JBool true => "True"
  | JBool false => "False"
  | JInt n => str_of_int n
  | JFloat r => r
  | JString s => repr_str s
  | JArray xs => "[" +:+ join ", " (List.map py_repr xs) +:+ "]"
  | JObject items =>
      "{" +:+ join ", " (List.map (fun kv => repr_str (fst kv) +:+ ": " +:+ py_repr (snd kv)) items)
          +:+ "}"
  end.

(** [str(v)], which is what an f-string field prints: the string itself for
    a [str], [repr(v)] for the rest. *)
Definition py_str (v : json) : string :=
  match v with
  | JString s => s
  | _ => py_repr v
  end.

(** [type(v).__name__] *)
Definition type_name (v : json) : string :=
  match v with
  | JNull => "NoneType"
  | JBool _ => "bool"
  | JInt _ => "int"
  | JFloat _ => "float"
  | JString _ => "str"
  | JArray _ => "list"
  | JObject _ => "dict"
  end.

(** [d.get(key)] on the items of a dict (the keys of a decoded object are
    pairwise distinct, so the first match is the only one). *)
Fixpoint dict_get (key : string) (items : list (string * json)) : option json :=
  match items with
  | [] => None
  | (k, v) :: rest => if String.eqb k key then Some v else dict_get key rest
  end.


(** ** Exceptions *)

(** The exception classes the client meets.  [RequestException] stands for
    the exceptions of the HTTP library that a session call raises
    (connection refused, timeout, retries exhausted, ...). *)
Inductive exn_class : Type :=
| Exception
| OSError
| ValueError
| AttributeError
| RequestException
| ApiConnectionError
| ApiValidationError
| ApiServerError.

#[global] Instance exn_class_eq_dec : EqDecision exn_class.
Proof. solve_decision. Defined.

(** The class itself followed by its base classes:
    [class ApiConnectionError(IOError)], [class ApiValidationError(ValueError)],
    [class ApiServerError(Exception)]; [IOError] is [OSError]. *)
Definition mro (c : exn_class) : list exn_class :=
  match c with
  | Exception => [Exception]
  | OSError => [OSError; Exception]
  | ValueError => [ValueError; Exception]
  | AttributeError => [AttributeError; Exception]
  | RequestException => [RequestException; OSError; Exception]
  | ApiConnectionError => [ApiConnectionError; OSError; Exception]
  | ApiValidationError => [ApiValidationError; ValueError; Exception]
  | ApiServerError => [ApiServerError; Exception]
  end.

Definition issubclass (c d : exn_class) : bool := bool_decide (d ∈ mro c).

Record exn : Type := Exn { cls : exn_class; msg : string }.

Definition isinstance (e : exn) (c : exn_class) : bool := issubclass (cls e) c.

Inductive result (A : Type) : Type :=
| Return (a : A)
| Raise (e : exn).
Arguments Return {A} a.
Arguments Raise {A} e.

(** ** Requests, responses and the session *)

Inductive decoded : Type :=
| Decoded (v : json)
| DecodeError (msg : string).

Record Response : Type := mkResponse {
  status_code : Z;
  text : string;
  json_ : decoded
}.

Inductive body : Type :=
| NoBody
| Files (files : gmap string (string * list Byte.byte))
| Json (payload : gmap string string).

Record Request : Type := mkRequest {
  method : string;
  url : string;
  req_body : body;
  req_timeout : Z
}.

(** What a session call comes back with: a response, or an exception of the
    HTTP library. *)
Inductive outcome : Type :=
| Responds (r : Response)
| Fails (reason : string).

(** The world behind the session: given the requests sent so far and the
    request sent now, what comes back. *)
Definition network : Type := list Request -> Request -> outcome.

(** Computations of the client: the log of requests handed to the session is
    threaded through, and a computation ends in a value or an exception. *)
Definition M (A : Type) : Type := list Request -> result A * list Request.

Definition ret {A} (a : A) : M A := fun log => (Return a, log).

Definition raise {A} (e : exn) : M A := fun log => (Raise e, log).

Definition bind {A B} (m : M A) (k : A -> M B) : M B :=
  fun log =>
    match m log with
    | (Return a, log') => k a log'
    | (Raise e, log') => (Raise e, log')
    end.

Definition lift {A} (r : result A) : M A := fun log => (r, log).

(** [try: m  except c as e: h e] *)
Definition try_except {A} (m : M A) (c : exn_class) (h : exn -> M A) : M A :=
  fun log =>
    match m log with
    | (Raise e, log') => if isinstance e c then h e log' else (Raise e, log')
    | done => done
    end.

Declare Scope client_scope.
Delimit Scope client_scope with client.
Notation "x <- m ;; k" := (bind m (fun x => k))
  (at level 100, m at next level, right associativity) : client_scope.

(** [session.request(...)]: the request goes out and is logged. *)
Definition session_send (net : network) (req : Request) : M Response :=
  fun log =>
    match net log req with
    | Responds r => (Return r, (log ++ [req])%list)
    | Fails reason => (Raise (Exn RequestException reason), (log ++ [req])%list)
    end.

(** ** The client *)

(** [urllib3.util.retry.Retry] as the client configures it. *)
Record Retry : Type := mkRetry {
  total : Z;
  status_forcelist : list Z;
  backoff_factor : Z
}.

(** The fields of [ApiClient]; [adapters] are the mounts of the session,
    each prefix with the [max_retries] of its [HTTPAdapter]. *)
Record ApiClient : Type := mkApiClient {
  base_url : string;
  timeout : Z;
  adapters : list (string * Retry)
}.

Definition default_timeout : Z := 30.
Definition default_retries : Z := 3.

(** [ApiClient.__init__] *)
Definition __init__ (base_url : string) (timeout retries : Z) : result ApiClient :=
  if negb (truthy base_url) then
    Raise (Exn ValueError "API base_url cannot be empty.")
  else
    let retry_strategy :=
      {| total := retries;
         status_forcelist := [429; 500; 502; 503; 504];
         backoff_factor := 1 |} in
    Return {| base_url := rstrip "/" base_url;
              timeout := timeout;
              adapters := [("http://", retry_strategy); ("https://", retry_strategy)] |}.

(** [Response.raise_for_status]: whether it raises [HTTPError], whose
    [response] is then the response itself. *)
Definition raise_for_status (r : Response) : bool :=
  ((400 <=? status_code r) && (status_code r <? 500))
  || ((500 <=? status_code r) && (status_code r <? 600)).

(** The value bound to [error_message] in the handler of [HTTPError]:
    [e.response.json().get('error', e.response.text)], and [e.response.text]
    when [json()] raises a [ValueError].  A decoded value that is not a dict
    has no [get]. *)
Definition error_message (r : Response) : result json :=
  match json_ r with
  | Decoded (JObject items) =>
      Return (default (JString (text r)) (dict_get "error" items))
  | Decoded v =>
      Raise (Exn AttributeError
               ("'" +:+ type_name v +:+ "' object has no attribute 'get'"))
  | DecodeError _ => Return (JString (text r))
  end.

(** The handler [except requests.exceptions.HTTPError as e] of
    [_handle_response], [r] being [e.response]. *)
Definition on_http_error (r : Response) : result json :=
  let status_code := status_code r in
  match error_message r with
  | Raise e => Raise e
  | Return error_message =>
      if (400 <=? status_code) && (status_code <? 500) then
        Raise (Exn ApiValidationError
                 ("API Validation Error (" +:+ str_of_int status_code +:+ "): "
                    +:+ py_str error_message))
      else if (500 <=? status_code) && (status_code <? 600) then
        Raise (Exn ApiServerError
                 ("API Server Error (" +:+ str_of_int status_code +:+ "): "
                    +:+ py_str error_message))
      else
        Raise (Exn ApiConnectionError
                 ("Unexpected HTTP Error (" +:+ str_of_int status_code +:+ "): "
                    +:+ py_str error_message))
  end.

(** [ApiClient._handle_response].  The decode error that [response.json()]
    raises on the success path is [requests.exceptions.JSONDecodeError], a
    [RequestException] (requests 2.27 and later), so the second handler
    catches it.  An exception raised inside the first handler is not seen
    by the second. *)
Definition _handle_response (response : Response) : result json :=
  if raise_for_status response then on_http_error response
  else if status_code response =? 204 then Return (JObject [])
  else
    match json_ response with
    | Decoded v => Return v
    | DecodeError e =>
        Raise (Exn ApiConnectionError ("Failed to connect to the API: " +:+ e))
    end.

Section Operations.

Variable net : network.
Variable self : ApiClient.

Local Open Scope client_scope.

Definition session_get (url : string) (timeout : Z) : M Response :=
  session_send net
    {| method := "GET"; url := url; req_body := NoBody; req_timeout := timeout |}.

Definition session_post (url : string) (b : body) (timeout : Z) : M Response :=
  session_send net
    {| method := "POST"; url := url; req_body := b; req_timeout := timeout |}.

(** [ApiClient.health_check] *)
Definition health_check : M json :=
  let url := base_url self +:+ "/health" in
  try_except
    (response <- session_get url (timeout self) ;;
     lift (_handle_response response))
    ApiConnectionError (fun e => raise e).

(** [ApiClient.upload_file] *)
Definition upload_file (file_content : list Byte.byte) (file_name : string) : M json :=
  let url := base_url self +:+ "/upload" in
  try_except
    (let files : gmap string (string * list Byte.byte) :=
       {[ "file" := (file_name, file_content) ]} in
     response <- session_post url (Files files) (timeout self) ;;
     lift (_handle_response response))
    ApiConnectionError (fun e => raise e).

(** [ApiClient.process_text] *)
Definition process_text (text : string) (document_name : option string) : M json :=
  let url := base_url self +:+ "/process-text" in
  if negb (truthy text) || negb (truthy (strip text)) then
    raise (Exn ValueError "Text content cannot be empty.")
  else
    let payload : gmap string string := {[ "text" := text ]} in
    let payload :=
      match document_name with
      | Some name => if truthy name then <[ "name" := name ]> payload else payload
      | None => payload
      end in
    try_except
      (response <- session_post url (Json payload) (timeout self) ;;
       lift (_handle_response response))
      ApiConnectionError (fun e => raise e).

End Operations.

(** ** The session beneath a call: retries *)

(** Modelled from the documentation of urllib3's [Retry] and of requests'
    [HTTPAdapter], the libraries that [__init__] configures and that the
    repository does not contain.  What is modelled is [HTTPAdapter.send]
    with [max_retries] a [Retry] built with [total], [status_forcelist]
    and [backoff_factor] and every other argument at its default:
    [allowed_methods] the idempotent methods, [raise_on_status] true,
    [respect_retry_after_header] true, no limit of its own on connect, read
    or status errors, [backoff_max] 120 seconds and no jitter.  Redirects are
    followed above the adapter and are not modelled. *)

(** What one attempt on the wire comes to: an answer, with the seconds its
    [Retry-After] header asks for when it has one, or a failure of the
    transport, which happened while reading the answer or before. *)
Inductive wire_outcome : Type :=
| Answers (r : Response) (retry_after : option Z)
| Breaks (reading : bool) (reason : string).

(** The server behind the adapter: given the requests the client handed to
    the session so far and the request being served, what each attempt
    comes to, the first attempt being attempt 0. *)
Definition wire : Type := list Request -> Request -> nat -> wire_outcome.

(** [Retry.DEFAULT_ALLOWED_METHODS], [Retry.RETRY_AFTER_STATUS_CODES] and
    the default [backoff_max]. *)
Definition allowed_methods : list string :=
  ["HEAD"; "GET"; "PUT"; "DELETE"; "OPTIONS"; "TRACE"].
Definition retry_after_status_codes : list Z := [413; 429; 503].
Definition backoff_max : Z := 120.

(** [Retry._is_method_retryable]; the methods of the client are written in
    upper case. *)
Definition is_method_retryable (method : string) : bool :=
  bool_decide (method ∈ allowed_methods).

(** [Retry.is_retry], [total] being the retries left. *)
Definition is_retry (retry : Retry) (total : Z) (method : string) (status : Z)
    (has_retry_after : bool) : bool :=
  if negb (is_method_retryable method) then false
  else if bool_decide (status ∈ status_forcelist retry) then true
  else negb (total =? 0) && has_retry_after
       && bool_decide (status ∈ retry_after_status_codes).

(** [Retry.get_backoff_time] after [n] failed attempts in a row. *)
Definition get_backoff_time (retry : Retry) (n : nat) : Z :=
  if (n <=? 1)%nat then 0
  else Z.max 0 (Z.min backoff_max (backoff_factor retry * 2 ^ (Z.of_nat n - 1))).

(** [Retry.sleep]: the seconds waited before the next attempt, the ones the
    answer asks for when it asks for some, the backoff otherwise. *)
Definition sleep_time (retry : Retry) (retry_after : option Z) (n : nat) : Z :=
  match retry_after with
  | Some seconds => if 0 <? seconds then seconds else get_backoff_time retry n
  | None => get_backoff_time retry n
  end.

(** The cause [Retry.increment] gives when the answers exhaust the
    retries; the message of the library wraps it with the pool and the
    URL, which the model does not carry. *)
Definition too_many (status : Z) : string :=
  "too many " +:+ str_of_int status +:+ " error responses".

(** [HTTPConnectionPool.urlopen] from attempt [k] on, with [total] retries
    left: what the adapter comes back with and the seconds waited before
    each further attempt.  An exhausted [Retry] makes the adapter raise
    [RetryError] or [ConnectionError], both [RequestException].  [fuel]
    bounds the recursion; [Z.to_nat total] is enough. *)
Fixpoint urlopen (fuel : nat) (retry : Retry) (srv : nat -> wire_outcome)
    (method : string) (total : Z) (k : nat) : outcome * list Z :=
  match srv k with
  | Answers r retry_after =>
      if is_retry retry total method (status_code r) (bool_decide (is_Some retry_after))
      then
        if total - 1 <? 0 then (Fails (too_many (status_code r)), [])
        else
          match fuel with
          | O => (Fails (too_many (status_code r)), [])
          | S fuel' =>
              let '(o, delays) := urlopen fuel' retry srv method (total - 1) (S k) in
              (o, sleep_time retry retry_after (S k) :: delays)
          end
      else (Responds r, [])
  | Breaks reading reason =>
      if reading && negb (is_method_retryable method) then (Fails reason, [])
      else if total - 1 <? 0 then (Fails reason, [])
      else
        match fuel with
        | O => (Fails reason, [])
        | S fuel' =>
            let '(o, delays) := urlopen fuel' retry srv method (total - 1) (S k) in
            (o, get_backoff_time retry (S k) :: delays)
        end
  end.

(** [HTTPAdapter.send] with [max_retries=retry]. *)
Definition adapter_send (retry : Retry) (srv : nat -> wire_outcome) (method : string)
  : outcome * list Z :=
  urlopen (Z.to_nat (total retry)) retry srv method (total retry) 0.

(** The session as the client sees it, for the requests served by an adapter
    whose policy is [retry]. *)
Definition session_with (retry : Retry) (srv : wire) : network :=
  fun log req => fst (adapter_send retry (srv log req) (method req)).

(** Whether some adapter of the client retries on the status. *)
Definition forced_status (self : ApiClient) (status : Z) : bool :=
  existsb (fun mount => bool_decide (status ∈ status_forcelist (snd mount)))
    (adapters self).

(** ** Definitions used to state the properties *)

(** The request each operation hands to the session. *)
Definition health_request (self : ApiClient) : Request :=
  {| method := "GET"; url := base_url self +:+ "/health";
     req_body := NoBody; req_timeout := timeout self |}.

Definition upload_request (self : ApiClient)
    (file_content : list Byte.byte) (file_name : string) : Request :=
  {| method := "POST"; url := base_url self +:+ "/upload";
     req_body := Files {[ "file" := (file_name, file_content) ]};
     req_timeout := timeout self |}.

Definition text_request (self : ApiClient) (payload : gmap string string) : Request :=
  {| method := "POST"; url := base_url self +:+ "/process-text";
     req_body := Json payload; req_timeout := timeout self |}.

(** What an operation yields once its request [req] is sent: the verdict of
    [_handle_response] on the response, or the exception of the session. *)
Definition exchange (net : network) (req : Request) (log : list Request)
  : result json * list Request :=
  (match net log req with
   | Responds r => _handle_response r
   | Fails reason => Raise (Exn RequestException reason)
   end, (log ++ [req])%list).

(** A response whose body is a JSON object or is not JSON at all. *)
Definition dict_or_undecodable (r : Response) : bool :=
  match json_ r with
  | Decoded (JObject _) => true
  | Decoded _ => false
  | DecodeError _ => true
  end.

(** The message the specification extracts from an error response: the
    [error] field of the body when the body is a JSON object that has it,
    the raw body text otherwise. *)
Definition spec_message (r : Response) : string :=
  match json_ r with
  | Decoded (JObject items) =>
      match dict_get "error" items with
      | Some v => py_str v
      | None => text r
      end
  | _ => text r
  end.

(** The payload [process_text] builds. *)
Definition text_payload (text : string) (document_name : option string)
  : gmap string string :=
  match document_name with
  | Some name => if truthy name then <[ "name" := name ]> {[ "text" := text ]}
                 else {[ "text" := text ]}
  | None => {[ "text" := text ]}
  end.

(** ** The page: frontend/app.py *)

(** Conventions for the page.  [st.session_state] is the record
    [SessionState]; what [st.success], [st.error] and [st.warning] show is
    appended to a list of events; the spinner only draws.  [asyncio.run]
    runs the coroutine to its end. *)

(** Streamlit's [UploadedFile], by [.name] and [.getvalue()]. *)
Record UploadedFile : Type := mkUploadedFile {
  uf_name : string;
  uf_getvalue : list Byte.byte
}.

(** The arguments [source_type] and [data] of [process_data], as its two
    call sites pass them: ['file'] with an uploaded file, ['text'] with the
    text of the text area. *)
Inductive source : Type :=
| FileSource (data : UploadedFile)
| TextSource (data : string).

(** An exception met in the page: one of [exn], or the builtin
    [TypeError], which the client never raises. *)
Inductive app_exn : Type :=
| Known (e : exn)
| TypeError (m : string).

(** [str(e)] *)
Definition exn_str (x : app_exn) : string :=
  match x with
  | Known e => msg e
  | TypeError m => m
  end.

(** Whether [except (ApiConnectionError, ApiValidationError, ApiServerError)]
    catches the exception. *)
Definition api_error (x : app_exn) : bool :=
  match x with
  | Known e =>
      isinstance e ApiConnectionError || isinstance e ApiValidationError
      || isinstance e ApiServerError
  | TypeError _ => false
  end.

(** One dict of [st.session_state.history]. *)
Record HistoryEntry : Type := mkHistoryEntry {
  timestamp : string;
  document_name : string;
  tasks_count : Z;
  entry_results : json
}.

(** The keys of [st.session_state] that the page uses; [current_time] is
    [None] while the key is absent. *)
Record SessionState : Type := mkSessionState {
  results : option json;
  error : option string;
  processing : bool;
  history : list HistoryEntry;
  current_time : option string
}.

Inductive ui_event : Type :=
| StSuccess (m : string)
| StError (m : string)
| StWarning (m : string).

(** The page while the script runs: the session state, what has been shown,
    and the requests handed to the session of the client. *)
Record Page : Type := mkPage {
  session_state : SessionState;
  ui : list ui_event;
  requests : list Request
}.

(** [v.get(key, dflt)] on a decoded value: only a dict has [get]. *)
Definition get_or (key : string) (dflt : json) (v : json) : exn + json :=
  match v with
  | JObject items => inr (default dflt (dict_get key items))
  | _ =>
      inl (Exn AttributeError
             ("'" +:+ type_name v +:+ "' object has no attribute 'get'"))
  end.

(** [len(v)] on a decoded value. *)
Definition py_len (v : json) : app_exn + Z :=
  match v with
  | JString s => inr (Z.of_nat (String.length s))
  | JArray xs => inr (Z.of_nat (List.length xs))
  | JObject items => inr (Z.of_nat (List.length items))
  | _ => inl (TypeError ("object of type '" +:+ type_name v +:+ "' has no len()"))
  end.

(** [data.name] *)
Definition data_name (src : source) : exn + string :=
  match src with
  | FileSource data => inr (uf_name data)
  | TextSource _ => inl (Exn AttributeError "'str' object has no attribute 'name'")
  end.

(** [name or data.name] *)
Definition name_or_data_name (src : source) (name : option string) : exn + string :=
  match name with
  | Some n => if truthy n then inr n else data_name src
  | None => data_name src
  end.

(** The dict appended to the history, its values evaluated in the order of
    the display. *)
Definition history_entry (st : SessionState) (src : source) (name : option string)
    (result : json) : app_exn + HistoryEntry :=
  let timestamp := default "N/A" (current_time st) in
  match name_or_data_name src name with
  | inl e => inl (Known e)
  | inr document_name =>
      match get_or "tasks" (JArray []) result with
      | inl e => inl (Known e)
      | inr tasks =>
          match py_len tasks with
          | inl x => inl x
          | inr tasks_count =>
              inr {| timestamp := timestamp;
                     document_name := document_name;
                     tasks_count := tasks_count;
                     entry_results := result |}
          end
      end
  end.

(** The two handlers of [process_data]. *)
Definition on_exception (x : app_exn) (st : SessionState) (shown : list ui_event)
  : SessionState * list ui_event :=
  if api_error x then
    ({| results := results st; error := Some (exn_str x);
        processing := processing st; history := history st;
        current_time := current_time st |},
     (shown ++ [StError ("Erro ao processar: " +:+ exn_str x)])%list)
  else
    ({| results := results st;
        error := Some ("Um erro inesperado ocorreu: " +:+ exn_str x);
        processing := processing st; history := history st;
        current_time := current_time st |},
     (shown ++ [StError ("Erro inesperado: " +:+ exn_str x)])%list).

(** The call [process_data] makes on the client. *)
Definition api_call (net : network) (api_client : ApiClient) (src : source)
    (name : option string) : M json :=
  match src with
  | FileSource data =>
      let file_content := uf_getvalue data in
      upload_file net api_client file_content (uf_name data)
  | TextSource data => process_text net api_client data name
  end.

(** [process_data(source_type, data, name)] *)
Definition process_data (net : network) (api_client : ApiClient) (src : source)
    (name : option string) (w : Page) : Page :=
  let st0 := session_state w in
  let st1 := {| results := None; error := None; processing := true;
                history := history st0; current_time := current_time st0 |} in
  let '(outcome, log) := api_call net api_client src name (requests w) in
  let '(st2, shown) :=
    match outcome with
    | Return result =>
        let st_r := {| results := Some result; error := error st1;
                       processing := processing st1; history := history st1;
                       current_time := current_time st1 |} in
        match history_entry st_r src name result with
        | inr entry =>
            ({| results := results st_r; error := error st_r;
                processing := processing st_r;
                history := (history st_r ++ [entry])%list;
                current_time := current_time st_r |},
             (ui w ++ [StSuccess "Documento processado com sucesso!"])%list)
        | inl x => on_exception x st_r (ui w)
        end
    | Raise e => on_exception (Known e) st1 (ui w)
    end in
  {| session_state :=
       {| results := results st2; error := error st2; processing := false;
          history := history st2; current_time := current_time st2 |};
     ui := shown;
     requests := log |}.

(** The button [Processar] of the upload tab, once clicked, with what the
    three widgets hold. *)
Definition on_process_click (net : network) (api_client : ApiClient)
    (uploaded_file : option UploadedFile) (text_input doc_name_input : string)
    (w : Page) : Page :=
  let st0 := session_state w in
  let w1 :=
    {| session_state :=
         {| results := results st0; error := error st0;
            processing := processing st0; history := history st0;
            current_time := Some (default EmptyString (current_time st0)) |};
       ui := ui w; requests := requests w |} in
  match uploaded_file with
  | Some f => process_data net api_client (FileSource f) None w1
  | None =>
      if truthy text_input then
        process_data net api_client (TextSource text_input)
          (Some (if truthy doc_name_input then doc_name_input else "texto_direto")) w1
      else
        {| session_state := session_state w1;
           ui := (ui w1
                  ++ [StWarning
                        "Por favor, envie um arquivo ou insira um texto para processar."])%list;
           requests := requests w1 |}
  end.

Definition api_unavailable : string :=
  "API indispon" +:+ one "237"%char +:+ "vel. Verifique se o backend est"
  +:+ one "225"%char +:+ " rodando.".

(** The button of the sidebar that checks the API, once clicked: the
    exception that leaves the handler, if any, and the page. *)
Definition on_health_click (net : network) (api_client : ApiClient) (w : Page)
  : option exn * Page :=
  let '(outcome, log) := health_check net api_client (requests w) in
  let shows (e : ui_event) : Page :=
    {| session_state := session_state w; ui := (ui w ++ [e])%list; requests := log |} in
  let quiet : Page :=
    {| session_state := session_state w; ui := ui w; requests := log |} in
  let caught (e : exn) : option exn * Page :=
    if isinstance e ApiConnectionError then (None, shows (StError api_unavailable))
    else (Some e, quiet) in
  match outcome with
  | Return status =>
      match get_or "status" (JString "N/A") status with
      | inr s =>
          match get_or "timestamp" (JString "N/A") status with
          | inr t =>
              (None,
               shows (StSuccess ("API Status: **" +:+ py_str s +:+ "** - " +:+ py_str t)))
          | inl e => caught e
          end
      | inl e => caught e
      end
  | Raise e => caught e
  end.

(** The last statement of the script: [current_time] keeps its value unless
    it is absent or empty, in which case it takes the clock's reading. *)
Definition refresh_current_time (now : string) (st : SessionState) : SessionState :=
  let kept := default EmptyString (current_time st) in
  {| results := results st; error := error st; processing := processing st;
     history := history st;
     current_time := Some (if truthy kept then kept else now) |}.

(** The request [process_data] has the client send for a source, and the
    sources for which the client sends none. *)
Definition source_request (api_client : ApiClient) (src : source)
    (name : option string) : Request :=
  match src with
  | FileSource data => upload_request api_client (uf_getvalue data) (uf_name data)
  | TextSource data => text_request api_client (text_payload data name)
  end.

Definition blank_source (src : source) : bool :=
  match src with
  | FileSource _ => false
  | TextSource data => all_chars isspace data
  end.

(** The page [process_data] leaves when an exception [x] ends it, [kept]
    being what [results] holds by then. *)
Definition failed_page (w : Page) (kept : option json) (x : app_exn)
    (log : list Request) : Page :=
  {| session_state :=
       {| results := kept;
          error := Some (if api_error x then exn_str x
                         else "Um erro inesperado ocorreu: " +:+ exn_str x);
          processing := false;
          history := history (session_state w);
          current_time := current_time (session_state w) |};
     ui := (ui w ++ [StError ((if api_error x then "Erro ao processar: "
                               else "Erro inesperado: ") +:+ exn_str x)])%list;
     requests := log |}.

(** ** Sample clients, responses and servers *)

Definition retry0 : Retry :=
  {| total := default_retries;
     status_forcelist := [429; 500; 502; 503; 504];
     backoff_factor := 1 |}.

(** The client that [ApiClient("http://x/api")] builds. *)
Definition client0 : ApiClient :=
  {| base_url := "http://x/api";
     timeout := default_timeout;
     adapters := [("http://", retry0); ("https://", retry0)] |}.

Definition quoted (s : string) : string := one quote2 +:+ s +:+ one quote2.

Definition no_json : decoded :=
  DecodeError "Expecting value: line 1 column 1 (char 0)".

(** The response [404] whose body is the object with [error] set to
    [not found]. *)
Definition not_found_404 : Response :=
  {| status_code := 404;
     text := "{" +:+ quoted "error" +:+ ":" +:+ quoted "not found" +:+ "}";
     json_ := Decoded (JObject [("error", JString "not found")]) |}.

(** The response [200] of a healthy server. *)
Definition health_ok_200 : Response :=
  {| status_code := 200;
     text := "{" +:+ quoted "status" +:+ ":" +:+ quoted "ok" +:+ ","
                 +:+ quoted "timestamp" +:+ ":" +:+ quoted "T" +:+ "}";
     json_ := Decoded (JObject [("status", JString "ok"); ("timestamp", JString "T")]) |}.

Definition no_content_204 : Response :=
  {| status_code := 204; text := EmptyString; json_ := no_json |}.

(** A [500] whose body is the JSON array [[]]. *)
Definition array_500 : Response :=
  {| status_code := 500; text := "[]"; json_ := Decoded (JArray []) |}.

Definition not_modified_304 : Response :=
  {| status_code := 304; text := EmptyString; json_ := no_json |}.

(** A [300] whose body is a JSON object with an [error] field. *)
Definition multiple_choices_300 : Response :=
  {| status_code := 300;
     text := "{" +:+ quoted "error" +:+ ":" +:+ quoted "pick one" +:+ "}";
     json_ := Decoded (JObject [("error", JString "pick one")]) |}.

(** A server that answers every request with [r], and one that is down. *)
Definition always (r : Response) : network := fun _ _ => Responds r.
Definition down : network := fun _ _ => Fails "Connection refused".

(** An uploaded file, a page at rest, and a server that extracts two
    tasks. *)
Definition notes_file : UploadedFile :=
  {| uf_name := "notes.txt"; uf_getvalue := [Byte.x68; Byte.x69] |}.

Definition page0 : Page :=
  {| session_state :=
       {| results := None; error := None; processing := false; history := [];
          current_time := Some "2024-05-01 10:00:00" |};
     ui := [];
     requests := [] |}.

Definition two_tasks : json :=
  JObject [("document", JObject [("name", JString "notes.txt")]);
           ("tasks", JArray [JObject [("title", JString "a")];
                             JObject [("title", JString "b")]])].

Definition two_tasks_200 : Response :=
  {| status_code := 200;
     text := "{" +:+ quoted "document" +:+ ":{" +:+ quoted "name" +:+ ":"
                 +:+ quoted "notes.txt" +:+ "}," +:+ quoted "tasks" +:+ ":[{"
                 +:+ quoted "title" +:+ ":" +:+ quoted "a" +:+ "},{"
                 +:+ quoted "title" +:+ ":" +:+ quoted "b" +:+ "}]}";
     json_ := Decoded two_tasks |}.

(** A server that is busy: once, and always. *)
Definition busy_503 : Response :=
  {| status_code := 503; text := "busy"; json_ := no_json |}.

Definition busy_once : wire :=
  fun _ _ k =>
    match k with
    | O => Answers busy_503 None
    | S _ => Answers two_tasks_200 None
    end.

Definition always_busy : wire := fun _ _ _ => Answers busy_503 None.

(** ** Evaluations of the string and JSON operations *)

Example py_str_list :
  py_str (JArray [JInt 1; JString "a'b"; JNull; JObject [("k", JBool true)]])
  = "[1, " +:+ one quote2 +:+ "a'b" +:+ one quote2 +:+ ", None, {'k': True}]".
Proof. reflexivity. Qed.

Example init_client0 :
  __init__ "http://x/api/" default_timeout default_retries = Return client0.
Proof. reflexivity. Qed.

Example nested_error_field :
  _handle_response
    {| status_code := 400; text := "raw";
       json_ := Decoded (JObject [("error", JObject [("code", JInt 7)])]) |}
  = Raise (Exn ApiValidationError "API Validation Error (400): {'code': 7}").
Proof. reflexivity. Qed.

Example rstrip_slashes : rstrip "/" "http://x/api//" = "http://x/api".
Proof. reflexivity. Qed.

Example strip_blank : strip (String "009"%char " x y  ") = "x y".
Proof. reflexivity. Qed.

(** ** Facts about the string operations *)

Section Strip.

Variable p : ascii -> bool.

Lemma lstrip_with_all (s : string) :
  all_chars p s = true -> lstrip_with p s = EmptyString.
Proof.
  induction s as [|a s IH]; simpl; [reflexivity|].
  destruct (p a); simpl; [exact IH | discriminate].
Qed.

Lemma lstrip_with_empty (s : string) :
  lstrip_with p s = EmptyString -> all_chars p s = true.
Proof.
  induction s as [|a s IH]; simpl; [reflexivity|].
  destruct (p a); simpl; [exact IH | discriminate].
Qed.

Lemma rstrip_with_empty (s : string) :
  rstrip_with p s = EmptyString <-> all_chars p s = true.
Proof.
  induction s as [|a s IH]; simpl; [tauto|].
  destruct (rstrip_with p s) as [|b r].
  - destruct (p a); simpl; [tauto|].
    split; discriminate.
  - split; [discriminate|].
    intros H. apply andb_prop in H as [_ H]. apply IH in H. discriminate.
Qed.

(** What [rstrip_with] removes is a run of characters of [p] at the end. *)
Lemma rstrip_with_split (s : string) :
  exists t, s = rstrip_with p s +:+ t /\ all_chars p t = true.
Proof.
  induction s as [|a s (t & Hs & Ht)]; simpl.
  - exists EmptyString. split; reflexivity.
  - destruct (rstrip_with p s) as [|b r] eqn:E; simpl in Hs.
    + subst t. destruct (p a) eqn:Ha.
      * exists (String a s). split; [reflexivity|].
        simpl. rewrite Ha. exact Ht.
      * exists s. split; [reflexivity | exact Ht].
    + exists t. split; [|exact Ht]. simpl. f_equal. exact Hs.
Qed.

(** What [rstrip_with] leaves does not end with a character of [p]. *)
Lemma rstrip_with_last (s r : string) (a : ascii) :
  rstrip_with p s = r +:+ one a -> p a = false.
Proof.
  revert r. induction s as [|b s IH]; intros r; simpl.
  - destruct r; discriminate.
  - destruct (rstrip_with p s) as [|c r'] eqn:E.
    + destruct (p b) eqn:Hb; [destruct r; discriminate|].
      destruct r as [|x r]; simpl; intros H; inversion H; subst.
      * exact Hb.
      * destruct r; discriminate.
    + destruct r as [|x r]; simpl; intros H; inversion H; subst.
      apply (IH r). assumption.
Qed.

End Strip.

Lemma strip_blank_iff (s : string) :
  strip s = EmptyString <-> all_chars isspace s = true.
Proof.
  unfold strip. rewrite rstrip_with_empty. split.
  - intros H. induction s as [|a s IH]; simpl in *; [reflexivity|].
    destruct (isspace a) eqn:Ha; simpl in *; [auto|].
    rewrite Ha in H. discriminate.
  - intros H. rewrite lstrip_with_all by exact H. reflexivity.
Qed.

Lemma truthy_false (s : string) : truthy s = false <-> s = EmptyString.
Proof. destruct s; simpl; split; congruence. Qed.

Lemma truthy_true (s : string) : truthy s = true <-> s <> EmptyString.
Proof. destruct s; simpl; split; congruence. Qed.

(** The test [not text or not text.strip()] of [process_text]. *)
Lemma blank_test (s : string) :
  negb (truthy s) || negb (truthy (strip s)) = all_chars isspace s.
Proof.
  destruct (all_chars isspace s) eqn:E.
  - apply strip_blank_iff in E. rewrite E. simpl. apply orb_true_r.
  - assert (strip s <> EmptyString) as Hs.
    { intros H. apply strip_blank_iff in H. congruence. }
    assert (s <> EmptyString) as Hn by (intros ->; discriminate).
    apply truthy_true in Hs, Hn. rewrite Hs, Hn. reflexivity.
Qed.

Lemma contains_slash (a : ascii) : contains a "/" = true <-> a = "/"%char.
Proof.
  change (contains a "/") with (Ascii.eqb "/" a || false).
  rewrite orb_false_r, Ascii.eqb_eq. split; congruence.
Qed.


Lemma all_slash (t : string) :
  all_chars (fun a => contains a "/") t = true -> t = slashes (String.length t).
Proof.
  induction t as [|a t IH]; simpl; [reflexivity|].
  intros H. apply andb_prop in H as [Ha Ht].
  apply contains_slash in Ha. subst a. f_equal. apply IH.
  exact Ht.
Qed.


Section OperationFacts.

Variable net : network.
Variable self : ApiClient.

(** A handler that only raises the exception again changes nothing. *)
Lemma try_except_reraise {A} (m : M A) (c : exn_class) (log : list Request) :
  try_except m c (fun e => raise e) log = m log.
Proof.
  unfold try_except, raise.
  destruct (m log) as [[a|e] log']; [reflexivity|].
  destruct (isinstance e c); reflexivity.
Qed.

Lemma send_then_handle (req : Request) (log : list Request) :
  bind (session_send net req) (fun response => lift (_handle_response response)) log
  = exchange net req log.
Proof.
  unfold bind, session_send, lift, exchange.
  destruct (net log req); reflexivity.
Qed.

Lemma health_check_exchange (log : list Request) :
  health_check net self log = exchange net (health_request self) log.
Proof.
  unfold health_check. rewrite try_except_reraise. apply send_then_handle.
Qed.

Lemma upload_file_exchange content name (log : list Request) :
  upload_file net self content name log
  = exchange net (upload_request self content name) log.
Proof.
  unfold upload_file. rewrite try_except_reraise. apply send_then_handle.
Qed.


Lemma process_text_exchange text document_name (log : list Request) :
  all_chars isspace text = false ->
  process_text net self text document_name log
  = exchange net (text_request self (text_payload text document_name)) log.
Proof.
  intros Hs. unfold process_text. rewrite blank_test, Hs.
  rewrite try_except_reraise. apply send_then_handle.
Qed.

Lemma process_text_blank text document_name (log : list Request) :
  all_chars isspace text = true ->
  process_text net self text document_name log
  = (Raise (Exn ValueError "Text content cannot be empty."), log).
Proof.
  intros Hs. unfold process_text. rewrite blank_test, Hs. reflexivity.
Qed.

End OperationFacts.

(** ** Response handling, case by case *)

Lemma raise_for_status_iff (r : Response) :
  raise_for_status r = true <-> 400 <= status_code r < 600.
Proof. unfold raise_for_status. lia. Qed.

Lemma error_message_spec (r : Response) :
  dict_or_undecodable r = true ->
  exists v, error_message r = Return v /\ py_str v = spec_message r.
Proof.
  unfold dict_or_undecodable, error_message, spec_message.
  destruct (json_ r) as [[]|]; try discriminate; intros _.
  - destruct (dict_get "error" items); eexists; split; reflexivity.
  - eexists; split; reflexivity.
Qed.

Lemma handle_4xx (r : Response) :
  400 <= status_code r < 500 ->
  dict_or_undecodable r = true ->
  _handle_response r
  = Raise (Exn ApiValidationError
             ("API Validation Error (" +:+ str_of_int (status_code r) +:+ "): "
                +:+ spec_message r)).
Proof.
  intros Hs Hd. unfold _handle_response.
  replace (raise_for_status r) with true by (symmetry; apply raise_for_status_iff; lia).
  unfold on_http_error.
  destruct (error_message_spec r Hd) as (v & -> & ->).
  replace ((400 <=? status_code r) && (status_code r <? 500)) with true by lia.
  reflexivity.
Qed.

Lemma handle_5xx (r : Response) :
  500 <= status_code r < 600 ->
  dict_or_undecodable r = true ->
  _handle_response r
  = Raise (Exn ApiServerError
             ("API Server Error (" +:+ str_of_int (status_code r) +:+ "): "
                +:+ spec_message r)).
Proof.
  intros Hs Hd. unfold _handle_response.
  replace (raise_for_status r) with true by (symmetry; apply raise_for_status_iff; lia).
  unfold on_http_error.
  destruct (error_message_spec r Hd) as (v & -> & ->).
  replace ((400 <=? status_code r) && (status_code r <? 500)) with false by lia.
  replace ((500 <=? status_code r) && (status_code r <? 600)) with true by lia.
  reflexivity.
Qed.

Lemma handle_other (r : Response) :
  raise_for_status r = false ->
  _handle_response r
  = if status_code r =? 204 then Return (JObject [])
    else match json_ r with
         | Decoded v => Return v
         | DecodeError e =>
             Raise (Exn ApiConnectionError ("Failed to connect to the API: " +:+ e))
         end.
Proof. intros H. unfold _handle_response. rewrite H. reflexivity. Qed.

Lemma handle_204 (r : Response) :
  status_code r = 204 -> _handle_response r = Return (JObject []).
Proof.
  intros H. rewrite handle_other.
  - rewrite H. reflexivity.
  - unfold raise_for_status. rewrite H. reflexivity.
Qed.

Lemma handle_2xx (r : Response) (v : json) :
  200 <= status_code r < 300 -> status_code r <> 204 -> json_ r = Decoded v ->
  _handle_response r = Return v.
Proof.
  intros Hs Hn Hj. rewrite handle_other.
  - replace (status_code r =? 204) with false by lia. rewrite Hj. reflexivity.
  - unfold raise_for_status. lia.
Qed.

(** ** Text submission *)

(** C1, as stated, fails: the error raised for an empty text is the builtin
    [ValueError], which is not an [ApiValidationError] and is none of the
    three error classes of the client, so a handler for validation errors
    does not take it. *)
Lemma blank_text_error_is_not_validation_error :
  process_text (always health_ok_200) client0 EmptyString None []
  = (Raise (Exn ValueError "Text content cannot be empty."), [])
  /\ isinstance (Exn ValueError "Text content cannot be empty.") ApiValidationError
     = false
  /\ api_error (Known (Exn ValueError "Text content cannot be empty.")) = false.
Proof. split; [reflexivity | split; reflexivity]. Qed.

(** C1, amended. For every text that is empty or made of whitespace only,
    and for any document name, [process_text] raises the builtin
    [ValueError], which is not an [ApiValidationError], with the log of
    requests unchanged: nothing is handed to the session, whatever the
    server would have answered. *)
Theorem process_text_blank_rejected
    (net : network) (self : ApiClient) (text : string)
    (document_name : option string) (log : list Request) :
  text = EmptyString \/ all_chars isspace text = true ->
  exists e : exn,
    process_text net self text document_name log = (Raise e, log)
    /\ e = Exn ValueError "Text content cannot be empty."
    /\ (forall c, isinstance e c = true <-> c = ValueError \/ c = Exception)
    /\ isinstance e ApiValidationError = false.
Proof.
  intros H. exists (Exn ValueError "Text content cannot be empty.").
  split; [|split; [reflexivity|split; [|reflexivity]]].
  - apply process_text_blank. destruct H as [-> | H]; [reflexivity | exact H].
  - intros c. destruct c; simpl; split; intros Hc;
      try discriminate; try (destruct Hc; discriminate); auto.
Qed.

Lemma process_text_blank_rejected_witness :
  exists e : exn,
    process_text (always health_ok_200) client0 (String "009"%char "  ")
      (Some "notes") []
    = (Raise e, [])
    /\ e = Exn ValueError "Text content cannot be empty."
    /\ (forall c, isinstance e c = true <-> c = ValueError \/ c = Exception)
    /\ isinstance e ApiValidationError = false.
Proof.
  apply (process_text_blank_rejected (always health_ok_200) client0
           (String "009"%char "  ") (Some "notes") []).
  right. reflexivity.
Defined.

(** C10. For every text that is not blank, [process_text] hands the session
    one POST to [/process-text] whose JSON body always has [text], and has
    [name] exactly when the document name is a non-empty string: it is left
    out both for [None] and for the empty string.  No other key is sent. *)
Theorem process_text_payload
    (net : network) (self : ApiClient) (text : string)
    (document_name : option string) (log : list Request) :
  all_chars isspace text = false ->
  exists payload : gmap string string,
    snd (process_text net self text document_name log)
    = (log ++ [text_request self payload])%list
    /\ payload !! "text" = Some text
    /\ payload !! "name"
       = match document_name with
         | Some name => if truthy name then Some name else None
         | None => None
         end
    /\ (document_name = None \/ document_name = Some EmptyString ->
        payload !! "name" = None)
    /\ (is_Some (payload !! "name") <->
        exists name, document_name = Some name /\ name <> EmptyString)
    /\ (forall k : string, k <> "text" -> k <> "name" -> payload !! k = None).
Proof.
  intros Hs. exists (text_payload text document_name).
  rewrite process_text_exchange by exact Hs.
  split; [reflexivity|].
  assert (text_payload text document_name !! "name"
          = match document_name with
            | Some name => if truthy name then Some name else None
            | None => None
            end) as Hname.
  { unfold text_payload. destruct document_name as [[|a n]|]; simpl.
    - apply lookup_singleton_ne. discriminate.
    - apply lookup_insert_eq.
    - apply lookup_singleton_ne. discriminate. }
  split; [|split; [exact Hname|split; [|split]]].
  - unfold text_payload. destruct document_name as [[|a n]|]; simpl.
    + apply lookup_singleton_eq.
    + rewrite lookup_insert_ne by discriminate. apply lookup_singleton_eq.
    + apply lookup_singleton_eq.
  - rewrite Hname. intros [-> | ->]; reflexivity.
  - rewrite Hname. destruct document_name as [[|a n]|]; simpl; split.
    + intros [x Hx]. discriminate.
    + intros (name & Hn & Hne). congruence.
    + intros _. eexists. split; [reflexivity | discriminate].
    + intros _. eexists. reflexivity.
    + intros [x Hx]. discriminate.
    + intros (name & Hn & _). discriminate.
  - intros k Ht Hn. unfold text_payload.
    destruct document_name as [[|a n]|]; simpl.
    + apply lookup_singleton_ne. congruence.
    + rewrite lookup_insert_ne by congruence. apply lookup_singleton_ne. congruence.
    + apply lookup_singleton_ne. congruence.
Qed.

Lemma process_text_payload_witness :
  all_chars isspace "buy milk" = false
  /\ exists payload : gmap string string,
       snd (process_text down client0 "buy milk" (Some EmptyString) [])
       = [text_request client0 payload]
       /\ payload !! "text" = Some "buy milk"
       /\ payload !! "name" = None.
Proof.
  split; [reflexivity|].
  destruct (process_text_payload down client0 "buy milk" (Some EmptyString) [] eq_refl)
    as (payload & Hlog & Htext & Hname & _).
  exists payload. split; [exact Hlog | split; [exact Htext | exact Hname]].
Defined.

(** ** Error responses *)

(** C2, as stated, fails on its own scenario: for the response 404 whose
    body is the object with [error] set to [not found], the error raised is
    an [ApiValidationError] whose message is
    [API Validation Error (404): not found], not [not found]. *)
Lemma not_found_message_has_prefix :
  _handle_response not_found_404
  = Raise (Exn ApiValidationError "API Validation Error (404): not found")
  /\ _handle_response not_found_404 <> Raise (Exn ApiValidationError "not found").
Proof. split; [reflexivity | discriminate]. Qed.

(** C2, amended. For every response with status in [400,500) whose body is
    a JSON object or is not JSON, response handling raises
    [ApiValidationError] with the message [API Validation Error (status): ]
    followed by the [error] field of the body when the body is a JSON
    object that has it, and by the raw body text otherwise.  Each operation
    passes that error on unchanged. *)
Theorem client_error_is_validation_error (r : Response) :
  400 <= status_code r < 500 ->
  dict_or_undecodable r = true ->
  _handle_response r
  = Raise (Exn ApiValidationError
             ("API Validation Error (" +:+ str_of_int (status_code r) +:+ "): "
                +:+ spec_message r))
  /\ (forall net self log,
        net log (health_request self) = Responds r ->
        fst (health_check net self log) = _handle_response r)
  /\ (forall net self content name log,
        net log (upload_request self content name) = Responds r ->
        fst (upload_file net self content name log) = _handle_response r)
  /\ (forall net self text document_name log,
        all_chars isspace text = false ->
        net log (text_request self (text_payload text document_name)) = Responds r ->
        fst (process_text net self text document_name log) = _handle_response r).
Proof.
  intros Hs Hd. split; [apply handle_4xx; assumption|].
  split; [|split].
  - intros net self log H. rewrite health_check_exchange. unfold exchange.
    rewrite H. reflexivity.
  - intros net self content name log H. rewrite upload_file_exchange. unfold exchange.
    rewrite H. reflexivity.
  - intros net self text document_name log Ht H.
    rewrite process_text_exchange by exact Ht. unfold exchange.
    rewrite H. reflexivity.
Qed.

Lemma client_error_is_validation_error_witness :
  (400 <= status_code not_found_404 < 500)
  /\ dict_or_undecodable not_found_404 = true
  /\ _handle_response not_found_404
     = Raise (Exn ApiValidationError "API Validation Error (404): not found").
Proof.
  split; [simpl; lia|]. split; [reflexivity|].
  destruct (client_error_is_validation_error not_found_404) as [H _];
    [simpl; lia | reflexivity | exact H].
Defined.

(** C3, at a failing input. For the response 500 whose body is the JSON
    array [[]], response handling raises [AttributeError], which is neither
    an [ApiServerError] nor any other error of the client. *)
Theorem server_error_with_array_body :
  _handle_response array_500
  = Raise (Exn AttributeError "'list' object has no attribute 'get'")
  /\ isinstance (Exn AttributeError "'list' object has no attribute 'get'")
       ApiServerError = false.
Proof. split; reflexivity. Qed.

(** What C3 says does hold for every 5xx response whose body is a JSON
    object or is not JSON: the message follows the rule of the 4xx case. *)
Lemma server_error_is_server_error (r r4 : Response) :
  500 <= status_code r < 600 ->
  400 <= status_code r4 < 500 ->
  text r4 = text r -> json_ r4 = json_ r ->
  dict_or_undecodable r = true ->
  exists m : string,
    _handle_response r
    = Raise (Exn ApiServerError
               ("API Server Error (" +:+ str_of_int (status_code r) +:+ "): " +:+ m))
    /\ _handle_response r4
       = Raise (Exn ApiValidationError
                  ("API Validation Error (" +:+ str_of_int (status_code r4) +:+ "): " +:+ m))
    /\ m = spec_message r.
Proof.
  intros H5 H4 Ht Hj Hd. exists (spec_message r).
  split; [apply handle_5xx; assumption|]. split; [|reflexivity].
  assert (spec_message r4 = spec_message r) as <-
    by (unfold spec_message; rewrite Ht, Hj; reflexivity).
  apply handle_4xx; [assumption|].
  unfold dict_or_undecodable in *. rewrite Hj. exact Hd.
Qed.

(** ** Health check *)

(** C4, as stated, fails: against a server that answers 404 the health check
    surfaces an [ApiValidationError], which is not an [ApiConnectionError];
    against one that answers 501 it surfaces an [ApiServerError].  Neither
    status is one the session retries on. *)
Lemma health_check_404_is_validation_error :
  health_check (always not_found_404) client0 []
  = (Raise (Exn ApiValidationError "API Validation Error (404): not found"),
     [health_request client0])
  /\ isinstance (Exn ApiValidationError "API Validation Error (404): not found")
       ApiConnectionError = false
  /\ fst (health_check (always (mkResponse 501 "boom" no_json)) client0 [])
     = Raise (Exn ApiServerError "API Server Error (501): boom")
  /\ forced_status client0 404 = false
  /\ forced_status client0 501 = false.
Proof. repeat split; reflexivity. Qed.

(** C4, amended. When the health check fails on a response that the session
    delivered, one whose status no adapter of the client retries on (the
    session hands the health check no response with status 429, 500, 502,
    503 or 504) and whose body is a JSON object or not JSON, the error
    surfaced is the one response handling raised, unchanged: an
    [ApiValidationError] for a status in [400,500), an [ApiServerError] for
    a status in [500,600), and an [ApiConnectionError] for any other
    status. *)
Theorem health_check_failure_kinds
    (net : network) (self : ApiClient) (log log' : list Request)
    (r : Response) (e : exn) :
  net log (health_request self) = Responds r ->
  forced_status self (status_code r) = false ->
  dict_or_undecodable r = true ->
  health_check net self log = (Raise e, log') ->
  _handle_response r = Raise e
  /\ log' = (log ++ [health_request self])%list
  /\ ((400 <= status_code r < 500 /\ cls e = ApiValidationError)
      \/ (500 <= status_code r < 600 /\ cls e = ApiServerError)
      \/ ((status_code r < 400 \/ 600 <= status_code r) /\ cls e = ApiConnectionError)).
Proof.
  intros Hnet _ Hd. rewrite health_check_exchange. unfold exchange. rewrite Hnet.
  intros H. inversion H as [[He Hlog]]. split; [reflexivity|]. split; [reflexivity|].
  destruct (Z_lt_ge_dec (status_code r) 400) as [Hlo|Hlo];
    [|destruct (Z_lt_ge_dec (status_code r) 500) as [H4|H4];
      [|destruct (Z_lt_ge_dec (status_code r) 600) as [H5|H5]]].
  - right; right. split; [lia|].
    rewrite handle_other in He by (unfold raise_for_status; lia).
    destruct (status_code r =? 204); [discriminate|].
    destruct (json_ r); [discriminate|]. inversion He. reflexivity.
  - left. split; [lia|]. rewrite handle_4xx in He by (assumption || lia).
    inversion He. reflexivity.
  - right; left. split; [lia|]. rewrite handle_5xx in He by (assumption || lia).
    inversion He. reflexivity.
  - right; right. split; [lia|].
    rewrite handle_other in He by (unfold raise_for_status; lia).
    destruct (status_code r =? 204); [discriminate|].
    destruct (json_ r); [discriminate|]. inversion He. reflexivity.
Qed.

Lemma health_check_failure_kinds_witness :
  _handle_response not_found_404
  = Raise (Exn ApiValidationError "API Validation Error (404): not found")
  /\ [health_request client0] = ([] ++ [health_request client0])%list
  /\ ((400 <= status_code not_found_404 < 500
       /\ cls (Exn ApiValidationError "API Validation Error (404): not found")
          = ApiValidationError)
      \/ (500 <= status_code not_found_404 < 600
          /\ cls (Exn ApiValidationError "API Validation Error (404): not found")
             = ApiServerError)
      \/ ((status_code not_found_404 < 400 \/ 600 <= status_code not_found_404)
          /\ cls (Exn ApiValidationError "API Validation Error (404): not found")
             = ApiConnectionError)).
Proof.
  apply (health_check_failure_kinds (always not_found_404) client0 []
           [health_request client0] not_found_404
           (Exn ApiValidationError "API Validation Error (404): not found"));
    reflexivity.
Defined.

(** A server that cannot be reached: the exception of the session comes
    out of the health check as it is. *)
Example health_check_down :
  health_check down client0 []
  = (Raise (Exn RequestException "Connection refused"), [health_request client0])
  /\ isinstance (Exn RequestException "Connection refused") ApiConnectionError = false.
Proof. split; reflexivity. Qed.

(** ** Statuses outside 2xx, 4xx and 5xx *)

(** C5, as stated, fails: for a 300 with a JSON body response handling
    returns the body, for a 304 with an empty body it raises an
    [ApiConnectionError], and the handler of HTTP errors run on the 300
    raises an [ApiConnectionError] too; none is an [ApiServerError]. *)
Lemma unexpected_status_not_server_error :
  _handle_response multiple_choices_300 = Return (JObject [("error", JString "pick one")])
  /\ _handle_response not_modified_304
     = Raise (Exn ApiConnectionError
                "Failed to connect to the API: Expecting value: line 1 column 1 (char 0)")
  /\ on_http_error multiple_choices_300
     = Raise (Exn ApiConnectionError "Unexpected HTTP Error (300): pick one")
  /\ isinstance (Exn ApiConnectionError "Unexpected HTTP Error (300): pick one")
       ApiServerError = false.
Proof. repeat split; reflexivity. Qed.

(** C5, amended. For every response whose status is neither 2xx nor in
    [400,500) nor in [500,600), [raise_for_status] raises nothing, response
    handling returns the body when it is JSON, and every error it raises is
    an [ApiConnectionError]; the handler of HTTP errors, run on such a
    response whose body is a JSON object or not JSON, raises
    [ApiConnectionError] with the message [Unexpected HTTP Error (status): ]
    and the extracted text. *)
Theorem unexpected_status_is_connection_error (r : Response) :
  ~ 200 <= status_code r < 300 ->
  ~ 400 <= status_code r < 500 ->
  ~ 500 <= status_code r < 600 ->
  raise_for_status r = false
  /\ (forall v, json_ r = Decoded v -> _handle_response r = Return v)
  /\ (forall e, _handle_response r = Raise e -> cls e = ApiConnectionError)
  /\ (dict_or_undecodable r = true ->
      on_http_error r
      = Raise (Exn ApiConnectionError
                 ("Unexpected HTTP Error (" +:+ str_of_int (status_code r) +:+ "): "
                    +:+ spec_message r))).
Proof.
  intros H2 H4 H5.
  assert (raise_for_status r = false) as Hr by (unfold raise_for_status; lia).
  split; [exact Hr|]. rewrite (handle_other r Hr).
  replace (status_code r =? 204) with false by lia.
  split; [|split].
  - intros v ->. reflexivity.
  - intros e. destruct (json_ r); [discriminate|]. intros He. inversion He. reflexivity.
  - intros Hd. unfold on_http_error.
    destruct (error_message_spec r Hd) as (v & -> & ->).
    replace ((400 <=? status_code r) && (status_code r <? 500)) with false by lia.
    replace ((500 <=? status_code r) && (status_code r <? 600)) with false by lia.
    reflexivity.
Qed.

Lemma unexpected_status_is_connection_error_witness :
  (~ 200 <= status_code not_modified_304 < 300)
  /\ (~ 400 <= status_code not_modified_304 < 500)
  /\ (~ 500 <= status_code not_modified_304 < 600)
  /\ raise_for_status not_modified_304 = false
  /\ on_http_error not_modified_304
     = Raise (Exn ApiConnectionError "Unexpected HTTP Error (304): ").
Proof.
  assert (~ 200 <= status_code not_modified_304 < 300) as H2 by (simpl; lia).
  assert (~ 400 <= status_code not_modified_304 < 500) as H4 by (simpl; lia).
  assert (~ 500 <= status_code not_modified_304 < 600) as H5 by (simpl; lia).
  destruct (unexpected_status_is_connection_error not_modified_304 H2 H4 H5)
    as (Hr & _ & _ & Hh).
  split; [exact H2|]. split; [exact H4|]. split; [exact H5|].
  split; [exact Hr|]. exact (Hh eq_refl).
Defined.

(** ** Successful responses *)

(** C7. For every response with a 2xx status other than 204 whose body is
    JSON, response handling returns the decoded body itself, and each of
    the three operations returns it to the caller, having sent one
    request. *)
Theorem success_body_returned_unchanged (r : Response) (v : json) :
  200 <= status_code r < 300 ->
  status_code r <> 204 ->
  json_ r = Decoded v ->
  _handle_response r = Return v
  /\ (forall net self log,
        net log (health_request self) = Responds r ->
        health_check net self log = (Return v, (log ++ [health_request self])%list))
  /\ (forall net self content name log,
        net log (upload_request self content name) = Responds r ->
        upload_file net self content name log
        = (Return v, (log ++ [upload_request self content name])%list))
  /\ (forall net self text document_name log,
        all_chars isspace text = false ->
        net log (text_request self (text_payload text document_name)) = Responds r ->
        process_text net self text document_name log
        = (Return v, (log ++ [text_request self (text_payload text document_name)])%list)).
Proof.
  intros Hs Hn Hj.
  assert (_handle_response r = Return v) as Hr by (apply handle_2xx; assumption).
  split; [exact Hr|]. split; [|split].
  - intros net self log H. rewrite health_check_exchange. unfold exchange.
    rewrite H, Hr. reflexivity.
  - intros net self content name log H. rewrite upload_file_exchange. unfold exchange.
    rewrite H, Hr. reflexivity.
  - intros net self text document_name log Ht H.
    rewrite process_text_exchange by exact Ht. unfold exchange.
    rewrite H, Hr. reflexivity.
Qed.

Lemma success_body_returned_unchanged_witness :
  (200 <= status_code health_ok_200 < 300)
  /\ status_code health_ok_200 <> 204
  /\ health_check (always health_ok_200) client0 []
     = (Return (JObject [("status", JString "ok"); ("timestamp", JString "T")]),
        [health_request client0]).
Proof.
  assert (200 <= status_code health_ok_200 < 300) as Hs by (simpl; lia).
  assert (status_code health_ok_200 <> 204) as Hn by (simpl; lia).
  destruct (success_body_returned_unchanged health_ok_200 _ Hs Hn eq_refl)
    as (_ & Hh & _).
  split; [exact Hs|]. split; [exact Hn|].
  exact (Hh (always health_ok_200) client0 [] eq_refl).
Defined.

(** C8. For every response with status 204, whatever its body and whether or
    not the body is JSON, response handling returns the empty dict, and so
    does each of the three operations. *)
Theorem no_content_returns_empty (body_text : string) (d : decoded) :
  let r := {| status_code := 204; text := body_text; json_ := d |} in
  _handle_response r = Return (JObject [])
  /\ (forall net self log,
        net log (health_request self) = Responds r ->
        health_check net self log
        = (Return (JObject []), (log ++ [health_request self])%list))
  /\ (forall net self content name log,
        net log (upload_request self content name) = Responds r ->
        upload_file net self content name log
        = (Return (JObject []), (log ++ [upload_request self content name])%list))
  /\ (forall net self text document_name log,
        all_chars isspace text = false ->
        net log (text_request self (text_payload text document_name)) = Responds r ->
        process_text net self text document_name log
        = (Return (JObject []),
           (log ++ [text_request self (text_payload text document_name)])%list)).
Proof.
  intros r.
  assert (_handle_response r = Return (JObject [])) as Hr by reflexivity.
  split; [exact Hr|]. split; [|split].
  - intros net self log H. rewrite health_check_exchange. unfold exchange.
    rewrite H, Hr. reflexivity.
  - intros net self content name log H. rewrite upload_file_exchange. unfold exchange.
    rewrite H, Hr. reflexivity.
  - intros net self text document_name log Ht H.
    rewrite process_text_exchange by exact Ht. unfold exchange.
    rewrite H, Hr. reflexivity.
Qed.

(** ** Construction *)

(** C9. Construction raises exactly when the base URL is empty; for every
    other base URL it succeeds, and the stored base URL is the input with
    its trailing slashes removed: the input is the stored URL followed by a
    run of slashes, and the stored URL does not end with a slash. *)
Theorem init_base_url (url0 : string) (timeout0 retries : Z) :
  ((exists e, __init__ url0 timeout0 retries = Raise e) <-> url0 = EmptyString)
  /\ (url0 <> EmptyString ->
      exists (c : ApiClient) (n : nat),
        __init__ url0 timeout0 retries = Return c
        /\ base_url c = rstrip "/" url0
        /\ url0 = base_url c +:+ slashes n
        /\ (forall (s : string) (a : ascii),
              base_url c = s +:+ one a -> a <> "/"%char)).
Proof.
  split.
  - destruct url0 as [|a s]; simpl; split.
    + reflexivity.
    + intros _. eexists. reflexivity.
    + intros [e He]. discriminate.
    + discriminate.
  - intros Hne. destruct url0 as [|a0 s0]; [congruence|].
    destruct (rstrip_with_split (fun a => contains a "/") (String a0 s0))
      as (t & Hsplit & Ht).
    eexists. exists (String.length t).
    split; [reflexivity|]. cbn [base_url]. split; [reflexivity|]. split.
    + rewrite <- (all_slash t Ht). exact Hsplit.
    + intros s a Hs Ha. apply rstrip_with_last in Hs.
      apply contains_slash in Ha. congruence.
Qed.

(** The retry policy handed to the adapters of the session: the retry count
    given to the constructor, the five status codes, and the factor 1. *)
Lemma init_retry_strategy (url0 : string) (timeout0 retries : Z) (c : ApiClient) :
  __init__ url0 timeout0 retries = Return c ->
  timeout c = timeout0
  /\ adapters c
     = (let retry_strategy :=
          {| total := retries;
             status_forcelist := [429; 500; 502; 503; 504];
             backoff_factor := 1 |} in
        [("http://", retry_strategy); ("https://", retry_strategy)]).
Proof.
  unfold __init__. destruct (truthy url0); simpl; [|discriminate].
  intros H. inversion H. split; reflexivity.
Qed.

(** ** More on the client: requests sent, failures of the session *)

Lemma rstrip_with_app_run (p : ascii -> bool) (u t : string) :
  all_chars p t = true -> rstrip_with p (u +:+ t) = rstrip_with p u.
Proof.
  intros Ht. induction u as [|a u IH]; simpl.
  - apply rstrip_with_empty. exact Ht.
  - rewrite IH. reflexivity.
Qed.

Lemma all_chars_slashes (n : nat) :
  all_chars (fun a => contains a "/") (slashes n) = true.
Proof. induction n as [|n IH]; simpl; [reflexivity | exact IH]. Qed.

Lemma exchange_log (net : network) (req : Request) (log : list Request) :
  snd (exchange net req log) = (log ++ [req])%list.
Proof. reflexivity. Qed.

Lemma exchange_fails (net : network) (req : Request) (log : list Request) reason :
  net log req = Fails reason ->
  exchange net req log = (Raise (Exn RequestException reason), (log ++ [req])%list).
Proof. intros H. unfold exchange. rewrite H. reflexivity. Qed.

Lemma exchange_responds (net : network) (req : Request) (log : list Request) r :
  net log req = Responds r ->
  exchange net req log = (_handle_response r, (log ++ [req])%list).
Proof. intros H. unfold exchange. rewrite H. reflexivity. Qed.

(** X1. Whatever the server does (answers, answers with an error, cannot be
    reached), the health check and the upload hand the session exactly one
    request, after the requests already sent; the upload does so for every
    content and file name, the empty ones too.  Text submission hands none
    when the text is blank and exactly one otherwise. *)
Theorem one_request_per_call
    (net : network) (self : ApiClient) (log : list Request) :
  snd (health_check net self log) = (log ++ [health_request self])%list
  /\ (forall content name,
        snd (upload_file net self content name log)
        = (log ++ [upload_request self content name])%list)
  /\ (forall text document_name,
        snd (process_text net self text document_name log)
        = if all_chars isspace text then log
          else (log ++ [text_request self (text_payload text document_name)])%list).
Proof.
  split; [|split].
  - rewrite health_check_exchange. apply exchange_log.
  - intros content name. rewrite upload_file_exchange. apply exchange_log.
  - intros text document_name. destruct (all_chars isspace text) eqn:E.
    + rewrite process_text_blank by exact E. reflexivity.
    + rewrite process_text_exchange by exact E. apply exchange_log.
Qed.

(** X2. When the session raises instead of answering (connection refused,
    timeout, retries exhausted), each operation raises that very exception:
    it is not turned into an [ApiConnectionError], and it is an instance of
    none of the three error classes of the client. *)
Theorem session_failure_is_not_wrapped
    (net : network) (self : ApiClient) (log : list Request) (reason : string) :
  (net log (health_request self) = Fails reason ->
   fst (health_check net self log) = Raise (Exn RequestException reason))
  /\ (forall content name,
        net log (upload_request self content name) = Fails reason ->
        fst (upload_file net self content name log) = Raise (Exn RequestException reason))
  /\ (forall text document_name,
        all_chars isspace text = false ->
        net log (text_request self (text_payload text document_name)) = Fails reason ->
        fst (process_text net self text document_name log)
        = Raise (Exn RequestException reason))
  /\ api_error (Known (Exn RequestException reason)) = false.
Proof.
  split; [|split; [|split]].
  - intros H. rewrite health_check_exchange, (exchange_fails _ _ _ _ H). reflexivity.
  - intros content name H.
    rewrite upload_file_exchange, (exchange_fails _ _ _ _ H). reflexivity.
  - intros text document_name Ht H.
    rewrite process_text_exchange by exact Ht.
    rewrite (exchange_fails _ _ _ _ H). reflexivity.
  - reflexivity.
Qed.

(** ** More on response handling: which error for which response *)

(** X3. Every error of response handling, by its class: [ApiValidationError]
    only for a status in [400,500), [ApiServerError] only for a status in
    [500,600), [ApiConnectionError] only for a status outside [400,600) and
    other than 204 with a body that is not JSON, and [AttributeError] only
    for a status in [400,600) with a JSON body that is not an object.
    Nothing else is ever raised. *)
Theorem handle_response_error_classes (r : Response) (e : exn) :
  _handle_response r = Raise e ->
  (cls e = ApiValidationError /\ 400 <= status_code r < 500
   /\ dict_or_undecodable r = true)
  \/ (cls e = ApiServerError /\ 500 <= status_code r < 600
      /\ dict_or_undecodable r = true)
  \/ (cls e = ApiConnectionError /\ ~ 400 <= status_code r < 600
      /\ status_code r <> 204 /\ exists m, json_ r = DecodeError m)
  \/ (cls e = AttributeError /\ 400 <= status_code r < 600
      /\ dict_or_undecodable r = false).
Proof.
  intros H. destruct (raise_for_status r) eqn:Hr.
  - apply raise_for_status_iff in Hr.
    destruct (dict_or_undecodable r) eqn:Hd.
    + destruct (Z_lt_ge_dec (status_code r) 500) as [H5|H5].
      * left. rewrite handle_4xx in H by (assumption || lia).
        inversion H. split; [reflexivity|]. split; [lia | reflexivity].
      * right; left. rewrite handle_5xx in H by (assumption || lia).
        inversion H. split; [reflexivity|]. split; [lia | reflexivity].
    + right; right; right. split; [|split; [lia | reflexivity]].
      unfold _handle_response in H.
      replace (raise_for_status r) with true in H
        by (symmetry; apply raise_for_status_iff; lia).
      unfold on_http_error, error_message in H.
      unfold dict_or_undecodable in Hd.
      destruct (json_ r) as [[]|]; try discriminate Hd; inversion H; reflexivity.
  - right; right; left.
    assert (~ 400 <= status_code r < 600) as Hn.
    { intros Hs. apply raise_for_status_iff in Hs. congruence. }
    rewrite (handle_other r Hr) in H.
    destruct (status_code r =? 204) eqn:E4; [discriminate|].
    destruct (json_ r) as [v|m] eqn:Ej; [discriminate|].
    inversion H. split; [reflexivity|]. split; [exact Hn|]. split; [lia|].
    exists m. reflexivity.
Qed.

Lemma handle_response_error_classes_witness :
  (cls (Exn AttributeError "'list' object has no attribute 'get'") = ApiValidationError
   /\ 400 <= status_code array_500 < 500 /\ dict_or_undecodable array_500 = true)
  \/ (cls (Exn AttributeError "'list' object has no attribute 'get'") = ApiServerError
      /\ 500 <= status_code array_500 < 600 /\ dict_or_undecodable array_500 = true)
  \/ (cls (Exn AttributeError "'list' object has no attribute 'get'") = ApiConnectionError
      /\ ~ 400 <= status_code array_500 < 600
      /\ status_code array_500 <> 204 /\ exists m, json_ array_500 = DecodeError m)
  \/ (cls (Exn AttributeError "'list' object has no attribute 'get'") = AttributeError
      /\ 400 <= status_code array_500 < 600 /\ dict_or_undecodable array_500 = false).
Proof.
  apply (handle_response_error_classes array_500
           (Exn AttributeError "'list' object has no attribute 'get'")).
  reflexivity.
Defined.

(** X4. Response handling returns a value exactly when the status is outside
    [400,600) and either the status is 204, the value being the empty dict,
    or the body is JSON, the value being the decoded body.  So a 1xx or 3xx
    response with a JSON body is a success like a 2xx one. *)
Theorem handle_response_returns_iff (r : Response) (v : json) :
  _handle_response r = Return v
  <-> ~ 400 <= status_code r < 600
      /\ ((status_code r = 204 /\ v = JObject [])
          \/ (status_code r <> 204 /\ json_ r = Decoded v)).
Proof.
  split.
  - intros H. destruct (raise_for_status r) eqn:Hr.
    + exfalso. unfold _handle_response in H. rewrite Hr in H.
      unfold on_http_error in H. destruct (error_message r); [|discriminate].
      destruct ((400 <=? status_code r) && (status_code r <? 500)); [discriminate|].
      destruct ((500 <=? status_code r) && (status_code r <? 600)); discriminate.
    + assert (~ 400 <= status_code r < 600) as Hn.
      { intros Hs. apply raise_for_status_iff in Hs. congruence. }
      split; [exact Hn|]. rewrite (handle_other r Hr) in H.
      destruct (status_code r =? 204) eqn:E4.
      * left. split; [lia|]. inversion H. reflexivity.
      * right. split; [lia|]. destruct (json_ r); [|discriminate].
        inversion H. reflexivity.
  - intros [Hn [[H4 ->] | [H4 Hj]]].
    + apply handle_204. exact H4.
    + rewrite handle_other by (unfold raise_for_status; lia).
      replace (status_code r =? 204) with false by lia. rewrite Hj. reflexivity.
Qed.

(** ** More on construction: trailing slashes *)

(** X5. Trailing slashes of a base URL do not matter: a non-empty base URL with
    any number of slashes added builds the same client, and the stored base
    URL is left as it is by a second stripping. *)
Theorem init_ignores_trailing_slashes
    (url0 : string) (n : nat) (timeout0 retries : Z) :
  url0 <> EmptyString ->
  __init__ (url0 +:+ slashes n) timeout0 retries = __init__ url0 timeout0 retries
  /\ rstrip "/" (rstrip "/" url0) = rstrip "/" url0.
Proof.
  intros Hne. split.
  - unfold __init__, rstrip.
    rewrite rstrip_with_app_run by apply all_chars_slashes.
    destruct url0 as [|a s]; [congruence|]. reflexivity.
  - unfold rstrip.
    destruct (rstrip_with_split (fun a => contains a "/") url0) as (t & Hs & Ht).
    rewrite Hs at 2. rewrite rstrip_with_app_run by exact Ht. reflexivity.
Qed.

Lemma init_ignores_trailing_slashes_witness :
  "http://x/api" <> EmptyString
  /\ __init__ ("http://x/api" +:+ slashes 3) default_timeout default_retries
     = __init__ "http://x/api" default_timeout default_retries.
Proof.
  assert ("http://x/api" <> EmptyString) as Hne by discriminate.
  split; [exact Hne|].
  exact (proj1 (init_ignores_trailing_slashes "http://x/api" 3
                  default_timeout default_retries Hne)).
Defined.

(** X6. The emptiness check is made on the base URL as given, before the
    slashes are stripped: a base URL made of slashes only is accepted, the
    stored base URL is empty, and the health check then asks for [/health]
    with no host. *)
Theorem init_accepts_slashes_only (n : nat) (timeout0 retries : Z) :
  exists c : ApiClient,
    __init__ (slashes (S n)) timeout0 retries = Return c
    /\ base_url c = EmptyString
    /\ url (health_request c) = "/health".
Proof.
  eexists. split; [reflexivity|].
  assert (rstrip "/" (slashes (S n)) = EmptyString) as H.
  { unfold rstrip. apply rstrip_with_empty. apply (all_chars_slashes (S n)). }
  cbn [base_url health_request url]. rewrite H. split; reflexivity.
Qed.

(** ** The page: what [process_data] leaves behind *)

Lemma api_call_exchange (net : network) (api_client : ApiClient) (src : source)
    (name : option string) (log : list Request) :
  blank_source src = false ->
  api_call net api_client src name log
  = exchange net (source_request api_client src name) log.
Proof.
  destruct src as [f|t]; simpl; intros H.
  - apply upload_file_exchange.
  - apply process_text_exchange. exact H.
Qed.

Lemma api_call_blank (net : network) (api_client : ApiClient) (src : source)
    (name : option string) (log : list Request) :
  blank_source src = true ->
  api_call net api_client src name log
  = (Raise (Exn ValueError "Text content cannot be empty."), log).
Proof.
  destruct src as [f|t]; simpl; intros H; [discriminate|].
  apply process_text_blank. exact H.
Qed.

Lemma process_data_raised (net : network) (api_client : ApiClient) (src : source)
    (name : option string) (w : Page) (e : exn) (log : list Request) :
  api_call net api_client src name (requests w) = (Raise e, log) ->
  process_data net api_client src name w = failed_page w None (Known e) log.
Proof.
  intros H. unfold process_data, failed_page. rewrite H.
  unfold on_exception. destruct (api_error (Known e)); reflexivity.
Qed.

Lemma history_entry_exn (st : SessionState) (src : source) (name : option string)
    (result : json) (x : app_exn) :
  history_entry st src name result = inl x -> api_error x = false.
Proof.
  unfold history_entry.
  destruct (name_or_data_name src name) as [e|dn] eqn:En.
  - intros H. inversion H. subst x.
    assert (cls e = AttributeError) as Hc.
    { unfold name_or_data_name, data_name in En.
      destruct name as [nm|]; [destruct (truthy nm); [discriminate|]|];
        destruct src; inversion En; reflexivity. }
    destruct e as [c m]. simpl in Hc. subst c. reflexivity.
  - destruct (get_or "tasks" (JArray []) result) as [e|tasks] eqn:Eg.
    + intros H. inversion H. subst x.
      unfold get_or in Eg. destruct result; inversion Eg; reflexivity.
    + destruct (py_len tasks) as [y|n] eqn:El; [|discriminate].
      intros H. inversion H. subst x.
      unfold py_len in El. destruct tasks; inversion El; reflexivity.
Qed.

Lemma history_entry_current_time (st st' : SessionState) (src : source)
    (name : option string) (result : json) :
  current_time st = current_time st' ->
  history_entry st src name result = history_entry st' src name result.
Proof. unfold history_entry. intros ->. reflexivity. Qed.

Lemma process_data_returned (net : network) (api_client : ApiClient) (src : source)
    (name : option string) (w : Page) (result : json) (log : list Request) :
  api_call net api_client src name (requests w) = (Return result, log) ->
  process_data net api_client src name w
  = match history_entry (session_state w) src name result with
    | inr entry =>
        {| session_state :=
             {| results := Some result; error := None; processing := false;
                history := (history (session_state w) ++ [entry])%list;
                current_time := current_time (session_state w) |};
           ui := (ui w ++ [StSuccess "Documento processado com sucesso!"])%list;
           requests := log |}
    | inl x => failed_page w (Some result) x log
    end.
Proof.
  intros H. unfold process_data. rewrite H.
  rewrite (history_entry_current_time _ (session_state w)) by reflexivity.
  destruct (history_entry (session_state w) src name result) as [x|entry] eqn:E.
  - pose proof (history_entry_exn _ _ _ _ _ E) as Hx.
    unfold on_exception, failed_page. rewrite Hx. reflexivity.
  - reflexivity.
Qed.

(** X7. Whatever the source, the name, the server and the page before:
    [process_data] ends with [processing] false and [current_time] as it
    was, shows exactly one message, has the client send at most one
    request, and either leaves the history as it was or appends one entry
    to it; [error] is [None] afterwards exactly when an entry was
    appended, and then [results] holds what the entry holds. *)
Theorem process_data_invariants
    (net : network) (api_client : ApiClient) (src : source)
    (name : option string) (w : Page) :
  let w' := process_data net api_client src name w in
  processing (session_state w') = false
  /\ current_time (session_state w') = current_time (session_state w)
  /\ (exists ev, ui w' = (ui w ++ [ev])%list)
  /\ (requests w' = requests w
      \/ requests w' = (requests w ++ [source_request api_client src name])%list)
  /\ ((error (session_state w') <> None
       /\ history (session_state w') = history (session_state w))
      \/ (error (session_state w') = None
          /\ exists entry,
               history (session_state w')
               = (history (session_state w) ++ [entry])%list
               /\ results (session_state w') = Some (entry_results entry))).
Proof.
  intros w'. subst w'.
  assert (snd (api_call net api_client src name (requests w)) = requests w
          \/ snd (api_call net api_client src name (requests w))
             = (requests w ++ [source_request api_client src name])%list) as Hlog.
  { destruct (blank_source src) eqn:Eb.
    - left. rewrite api_call_blank by exact Eb. reflexivity.
    - right. rewrite api_call_exchange by exact Eb. apply exchange_log. }
  destruct (api_call net api_client src name (requests w)) as [[result|e] log] eqn:E;
    simpl in Hlog.
  - rewrite (process_data_returned _ _ _ _ _ _ _ E).
    destruct (history_entry (session_state w) src name result) as [x|entry] eqn:Eh.
    + unfold failed_page; simpl.
      split; [reflexivity|]. split; [reflexivity|]. split; [eexists; reflexivity|].
      split; [exact Hlog|]. left. split; [discriminate | reflexivity].
    + simpl.
      split; [reflexivity|]. split; [reflexivity|]. split; [eexists; reflexivity|].
      split; [exact Hlog|]. right. split; [reflexivity|].
      exists entry. split; [reflexivity|].
      unfold history_entry in Eh.
      destruct (name_or_data_name src name); [discriminate|].
      destruct (get_or "tasks" (JArray []) result); [discriminate|].
      destruct (py_len j); [discriminate|]. inversion Eh. reflexivity.
  - rewrite (process_data_raised _ _ _ _ _ _ _ E).
    unfold failed_page; simpl.
    split; [reflexivity|]. split; [reflexivity|]. split; [eexists; reflexivity|].
    split; [exact Hlog|]. left. split; [discriminate | reflexivity].
Qed.

(** X8. When the server answers the request of the source with a response that
    response handling turns into a dict, the name resolves and the tasks
    can be counted, [process_data] stores the dict in [results], clears
    [error], and appends to the history one entry with the frozen
    [current_time] (or N/A), the document name, the number of tasks and the
    dict itself; the tasks count as none when the dict has no [tasks]. *)
Theorem process_data_success
    (net : network) (api_client : ApiClient) (src : source) (name : option string)
    (w : Page) (r : Response) (items : list (string * json)) (dn : string) (n : Z) :
  blank_source src = false ->
  net (requests w) (source_request api_client src name) = Responds r ->
  _handle_response r = Return (JObject items) ->
  name_or_data_name src name = inr dn ->
  py_len (default (JArray []) (dict_get "tasks" items)) = inr n ->
  process_data net api_client src name w
  = {| session_state :=
         {| results := Some (JObject items); error := None; processing := false;
            history :=
              (history (session_state w)
               ++ [ {| timestamp := default "N/A" (current_time (session_state w));
                       document_name := dn;
                       tasks_count := n;
                       entry_results := JObject items |} ])%list;
            current_time := current_time (session_state w) |};
       ui := (ui w ++ [StSuccess "Documento processado com sucesso!"])%list;
       requests := (requests w ++ [source_request api_client src name])%list |}.
Proof.
  intros Hb Hnet Hr Hn Hl.
  rewrite (process_data_returned net api_client src name w (JObject items)
             (requests w ++ [source_request api_client src name])%list).
  - unfold history_entry. rewrite Hn. simpl. rewrite Hl. reflexivity.
  - rewrite api_call_exchange by exact Hb.
    rewrite (exchange_responds _ _ _ _ Hnet), Hr. reflexivity.
Qed.

Lemma process_data_success_witness :
  process_data (always two_tasks_200) client0 (FileSource notes_file) None page0
  = {| session_state :=
         {| results := Some two_tasks; error := None; processing := false;
            history := [ {| timestamp := "2024-05-01 10:00:00";
                            document_name := "notes.txt";
                            tasks_count := 2;
                            entry_results := two_tasks |} ];
            current_time := Some "2024-05-01 10:00:00" |};
       ui := [StSuccess "Documento processado com sucesso!"];
       requests := [upload_request client0 [Byte.x68; Byte.x69] "notes.txt"] |}.
Proof.
  exact (process_data_success (always two_tasks_200) client0 (FileSource notes_file)
           None page0 two_tasks_200 _ "notes.txt" 2
           eq_refl eq_refl eq_refl eq_refl eq_refl).
Defined.

(** X9. When the server answers with a 4xx or 5xx status (the body a JSON
    object or not JSON), [process_data] stores the message of the client's
    error in [error] as it is, shows it after [Erro ao processar: ], leaves
    [results] empty and the history as it was. *)
Theorem process_data_http_error
    (net : network) (api_client : ApiClient) (src : source) (name : option string)
    (w : Page) (r : Response) :
  blank_source src = false ->
  net (requests w) (source_request api_client src name) = Responds r ->
  400 <= status_code r < 600 ->
  dict_or_undecodable r = true ->
  let m := (if status_code r <? 500 then "API Validation Error ("
            else "API Server Error (")
           +:+ str_of_int (status_code r) +:+ "): " +:+ spec_message r in
  process_data net api_client src name w
  = {| session_state :=
         {| results := None; error := Some m; processing := false;
            history := history (session_state w);
            current_time := current_time (session_state w) |};
       ui := (ui w ++ [StError ("Erro ao processar: " +:+ m)])%list;
       requests := (requests w ++ [source_request api_client src name])%list |}.
Proof.
  intros Hb Hnet Hs Hd m. subst m.
  destruct (Z.ltb_spec (status_code r) 500) as [H5|H5].
  - rewrite (process_data_raised net api_client src name w
               (Exn ApiValidationError
                  ("API Validation Error (" +:+ str_of_int (status_code r) +:+ "): "
                     +:+ spec_message r))
               (requests w ++ [source_request api_client src name])%list).
    + reflexivity.
    + rewrite api_call_exchange by exact Hb.
      rewrite (exchange_responds _ _ _ _ Hnet), handle_4xx by (assumption || lia).
      reflexivity.
  - rewrite (process_data_raised net api_client src name w
               (Exn ApiServerError
                  ("API Server Error (" +:+ str_of_int (status_code r) +:+ "): "
                     +:+ spec_message r))
               (requests w ++ [source_request api_client src name])%list).
    + reflexivity.
    + rewrite api_call_exchange by exact Hb.
      rewrite (exchange_responds _ _ _ _ Hnet), handle_5xx by (assumption || lia).
      reflexivity.
Qed.

Lemma process_data_http_error_witness :
  process_data (always not_found_404) client0 (TextSource "buy milk") (Some "list") page0
  = {| session_state :=
         {| results := None;
            error := Some "API Validation Error (404): not found";
            processing := false; history := [];
            current_time := Some "2024-05-01 10:00:00" |};
       ui := [StError "Erro ao processar: API Validation Error (404): not found"];
       requests := [text_request client0 (text_payload "buy milk" (Some "list"))] |}.
Proof.
  apply (process_data_http_error (always not_found_404) client0 (TextSource "buy milk")
           (Some "list") page0 not_found_404); [reflexivity | reflexivity | | reflexivity].
  simpl. lia.
Defined.

(** X10. A blank text never reaches the server, and the page reports it as an
    unexpected error: the [ValueError] of the client is not one of the
    three errors the first handler names. *)
Theorem process_data_blank_text
    (net : network) (api_client : ApiClient) (text : string)
    (name : option string) (w : Page) :
  all_chars isspace text = true ->
  process_data net api_client (TextSource text) name w
  = {| session_state :=
         {| results := None;
            error := Some "Um erro inesperado ocorreu: Text content cannot be empty.";
            processing := false;
            history := history (session_state w);
            current_time := current_time (session_state w) |};
       ui := (ui w ++ [StError "Erro inesperado: Text content cannot be empty."])%list;
       requests := requests w |}.
Proof.
  intros H.
  rewrite (process_data_raised net api_client (TextSource text) name w
             (Exn ValueError "Text content cannot be empty.") (requests w)).
  - reflexivity.
  - apply (api_call_blank net api_client (TextSource text)). exact H.
Qed.

Lemma process_data_blank_text_witness :
  process_data (always two_tasks_200) client0 (TextSource "   ") (Some "list") page0
  = {| session_state :=
         {| results := None;
            error := Some "Um erro inesperado ocorreu: Text content cannot be empty.";
            processing := false; history := [];
            current_time := Some "2024-05-01 10:00:00" |};
       ui := [StError "Erro inesperado: Text content cannot be empty."];
       requests := [] |}.
Proof.
  exact (process_data_blank_text (always two_tasks_200) client0 "   " (Some "list")
           page0 eq_refl).
Defined.

(** X11. When the server cannot be reached, the page reports an unexpected
    error carrying the text of the session's exception: that exception is
    not an [ApiConnectionError], so the first handler does not take it. *)
Theorem process_data_session_failure
    (net : network) (api_client : ApiClient) (src : source) (name : option string)
    (w : Page) (reason : string) :
  blank_source src = false ->
  net (requests w) (source_request api_client src name) = Fails reason ->
  process_data net api_client src name w
  = {| session_state :=
         {| results := None;
            error := Some ("Um erro inesperado ocorreu: " +:+ reason);
            processing := false;
            history := history (session_state w);
            current_time := current_time (session_state w) |};
       ui := (ui w ++ [StError ("Erro inesperado: " +:+ reason)])%list;
       requests := (requests w ++ [source_request api_client src name])%list |}.
Proof.
  intros Hb Hnet.
  rewrite (process_data_raised net api_client src name w
             (Exn RequestException reason)
             (requests w ++ [source_request api_client src name])%list).
  - reflexivity.
  - rewrite api_call_exchange by exact Hb. apply exchange_fails. exact Hnet.
Qed.

Lemma process_data_session_failure_witness :
  process_data down client0 (FileSource notes_file) None page0
  = {| session_state :=
         {| results := None;
            error := Some "Um erro inesperado ocorreu: Connection refused";
            processing := false; history := [];
            current_time := Some "2024-05-01 10:00:00" |};
       ui := [StError "Erro inesperado: Connection refused"];
       requests := [upload_request client0 [Byte.x68; Byte.x69] "notes.txt"] |}.
Proof.
  exact (process_data_session_failure down client0 (FileSource notes_file) None page0
           "Connection refused" eq_refl eq_refl).
Defined.

(** X12. When the client returns a JSON value that is not a dict (an array, a
    string, a number, null), [results] is set to it and then counting the
    tasks fails: the page ends with both [results] and [error] set, and no
    history entry. *)
Theorem process_data_result_not_a_dict
    (net : network) (api_client : ApiClient) (src : source) (name : option string)
    (w : Page) (r : Response) (result : json) (dn : string) :
  blank_source src = false ->
  net (requests w) (source_request api_client src name) = Responds r ->
  _handle_response r = Return result ->
  (forall items, result <> JObject items) ->
  name_or_data_name src name = inr dn ->
  process_data net api_client src name w
  = {| session_state :=
         {| results := Some result;
            error := Some ("Um erro inesperado ocorreu: '" +:+ type_name result
                             +:+ "' object has no attribute 'get'");
            processing := false;
            history := history (session_state w);
            current_time := current_time (session_state w) |};
       ui := (ui w ++ [StError ("Erro inesperado: '" +:+ type_name result
                                  +:+ "' object has no attribute 'get'")])%list;
       requests := (requests w ++ [source_request api_client src name])%list |}.
Proof.
  intros Hb Hnet Hr Hnd Hn.
  rewrite (process_data_returned net api_client src name w result
             (requests w ++ [source_request api_client src name])%list).
  - unfold history_entry. rewrite Hn.
    destruct result; try reflexivity. exfalso. exact (Hnd items eq_refl).
  - rewrite api_call_exchange by exact Hb.
    rewrite (exchange_responds _ _ _ _ Hnet), Hr. reflexivity.
Qed.

Lemma process_data_result_not_a_dict_witness :
  process_data (always (mkResponse 200 "[]" (Decoded (JArray [])))) client0
    (FileSource notes_file) None page0
  = {| session_state :=
         {| results := Some (JArray []);
            error := Some "Um erro inesperado ocorreu: 'list' object has no attribute 'get'";
            processing := false; history := [];
            current_time := Some "2024-05-01 10:00:00" |};
       ui := [StError "Erro inesperado: 'list' object has no attribute 'get'"];
       requests := [upload_request client0 [Byte.x68; Byte.x69] "notes.txt"] |}.
Proof.
  apply (process_data_result_not_a_dict (always (mkResponse 200 "[]" (Decoded (JArray []))))
           client0 (FileSource notes_file) None page0
           (mkResponse 200 "[]" (Decoded (JArray []))) (JArray []) "notes.txt");
    try reflexivity.
  intros items. discriminate.
Defined.

(** X13. For a text source the name is needed: with no name, or an empty one,
    [process_data] fails after the server has answered, on [data.name] of
    a [str]; whatever the client returned stays in [results], [error] is
    set and the history is left as it was. *)
Theorem process_data_text_without_name
    (net : network) (api_client : ApiClient) (text : string) (name : option string)
    (w : Page) (r : Response) (result : json) :
  all_chars isspace text = false ->
  name = None \/ name = Some EmptyString ->
  net (requests w) (text_request api_client {[ "text" := text ]}) = Responds r ->
  _handle_response r = Return result ->
  process_data net api_client (TextSource text) name w
  = {| session_state :=
         {| results := Some result;
            error := Some "Um erro inesperado ocorreu: 'str' object has no attribute 'name'";
            processing := false;
            history := history (session_state w);
            current_time := current_time (session_state w) |};
       ui := (ui w ++ [StError "Erro inesperado: 'str' object has no attribute 'name'"])%list;
       requests := (requests w ++ [text_request api_client {[ "text" := text ]}])%list |}.
Proof.
  intros Ht Hname Hnet Hr.
  assert (text_payload text name = {[ "text" := text ]}) as Hp
    by (destruct Hname as [-> | ->]; reflexivity).
  rewrite (process_data_returned net api_client (TextSource text) name w result
             (requests w ++ [text_request api_client {[ "text" := text ]}])%list).
  - unfold history_entry. destruct Hname as [-> | ->]; reflexivity.
  - rewrite (api_call_exchange net api_client (TextSource text)) by exact Ht.
    simpl. rewrite Hp. rewrite (exchange_responds _ _ _ _ Hnet), Hr. reflexivity.
Qed.

Lemma process_data_text_without_name_witness :
  process_data (always two_tasks_200) client0 (TextSource "buy milk") None page0
  = {| session_state :=
         {| results := Some two_tasks;
            error := Some "Um erro inesperado ocorreu: 'str' object has no attribute 'name'";
            processing := false; history := [];
            current_time := Some "2024-05-01 10:00:00" |};
       ui := [StError "Erro inesperado: 'str' object has no attribute 'name'"];
       requests := [text_request client0 {[ "text" := "buy milk" ]}] |}.
Proof.
  apply (process_data_text_without_name (always two_tasks_200) client0 "buy milk" None
           page0 two_tasks_200 two_tasks); try reflexivity.
  left. reflexivity.
Defined.

(** ** The page: the two buttons and the clock *)

Lemma process_data_requests (net : network) (api_client : ApiClient) (src : source)
    (name : option string) (w : Page) :
  requests (process_data net api_client src name w)
  = snd (api_call net api_client src name (requests w)).
Proof.
  destruct (api_call net api_client src name (requests w)) as [[result|e] log] eqn:E.
  - rewrite (process_data_returned _ _ _ _ _ _ _ E).
    destruct (history_entry (session_state w) src name result); reflexivity.
  - rewrite (process_data_raised _ _ _ _ _ _ _ E). reflexivity.
Qed.

Lemma not_longer {A} (l : list A) (x : A) : l <> (l ++ [x])%list.
Proof.
  intros H. apply (f_equal (@List.length A)) in H.
  rewrite List.length_app in H. simpl in H. lia.
Qed.

Lemma process_data_appended (net : network) (api_client : ApiClient) (src : source)
    (name : option string) (w : Page) (entry : HistoryEntry) :
  history (session_state (process_data net api_client src name w))
  = (history (session_state w) ++ [entry])%list ->
  timestamp entry = default "N/A" (current_time (session_state w)).
Proof.
  destruct (api_call net api_client src name (requests w)) as [[result|e] log] eqn:E.
  - rewrite (process_data_returned _ _ _ _ _ _ _ E).
    destruct (history_entry (session_state w) src name result) as [x|entry0] eqn:Eh.
    + simpl. intros H. exfalso. exact (not_longer _ _ H).
    + simpl. intros H. apply List.app_inj_tail in H as [_ <-].
      unfold history_entry in Eh.
      destruct (name_or_data_name src name); [discriminate|].
      destruct (get_or "tasks" (JArray []) result); [discriminate|].
      destruct (py_len j); [discriminate|]. inversion Eh. reflexivity.
  - rewrite (process_data_raised _ _ _ _ _ _ _ E). simpl.
    intros H. exfalso. exact (not_longer _ _ H).
Qed.

Lemma nonblank_truthy (s : string) : all_chars isspace s = false -> truthy s = true.
Proof. destruct s; [discriminate | reflexivity]. Qed.

(** X14. A text sent from the page always carries a name: with no file chosen
    and a text that is not blank, a click has the client send one request
    whose payload has the text as typed and, as [name], the name typed or
    [texto_direto] when none was typed. *)
Theorem process_click_text_is_named
    (net : network) (api_client : ApiClient) (text_input doc_name_input : string)
    (w : Page) :
  all_chars isspace text_input = false ->
  exists payload : gmap string string,
    requests (on_process_click net api_client None text_input doc_name_input w)
    = (requests w ++ [text_request api_client payload])%list
    /\ payload !! "text" = Some text_input
    /\ payload !! "name"
       = Some (if truthy doc_name_input then doc_name_input else "texto_direto").
Proof.
  intros Ht.
  set (nm := if truthy doc_name_input then doc_name_input else "texto_direto").
  assert (truthy nm = true) as Hnm by (subst nm; destruct doc_name_input; reflexivity).
  exists (<[ "name" := nm ]> {[ "text" := text_input ]}).
  split; [|split].
  - unfold on_process_click. rewrite (nonblank_truthy _ Ht).
    rewrite process_data_requests.
    rewrite (api_call_exchange net api_client (TextSource text_input)) by exact Ht.
    simpl. fold nm. rewrite Hnm. reflexivity.
  - rewrite lookup_insert_ne by discriminate. apply lookup_singleton_eq.
  - apply lookup_insert_eq.
Qed.

Lemma process_click_text_is_named_witness :
  all_chars isspace "buy milk" = false
  /\ exists payload : gmap string string,
       requests (on_process_click down client0 None "buy milk" EmptyString page0)
       = [text_request client0 payload]
       /\ payload !! "name" = Some "texto_direto".
Proof.
  split; [reflexivity|].
  destruct (process_click_text_is_named down client0 "buy milk" EmptyString page0 eq_refl)
    as (payload & Hreq & _ & Hname).
  exists payload. split; [exact Hreq | exact Hname].
Defined.

(** X15. The file comes first: when a file is chosen, a click uploads it and
    what the text area and the name field hold plays no part.  When nothing
    is chosen and the text area is empty, a click only shows a warning:
    nothing is sent and results, error and history stay as they were. *)
Theorem process_click_dispatch
    (net : network) (api_client : ApiClient) (text_input doc_name_input : string)
    (w : Page) :
  (forall f : UploadedFile,
     on_process_click net api_client (Some f) text_input doc_name_input w
     = on_process_click net api_client (Some f) EmptyString EmptyString w
     /\ requests (on_process_click net api_client (Some f) text_input doc_name_input w)
        = (requests w ++ [upload_request api_client (uf_getvalue f) (uf_name f)])%list)
  /\ (let w' := on_process_click net api_client None EmptyString doc_name_input w in
      requests w' = requests w
      /\ ui w'
         = (ui w ++ [StWarning
                       "Por favor, envie um arquivo ou insira um texto para processar."])%list
      /\ results (session_state w') = results (session_state w)
      /\ error (session_state w') = error (session_state w)
      /\ history (session_state w') = history (session_state w)
      /\ processing (session_state w') = processing (session_state w)).
Proof.
  split.
  - intros f. split; [reflexivity|].
    unfold on_process_click. rewrite process_data_requests.
    rewrite (api_call_exchange net api_client (FileSource f)) by reflexivity.
    reflexivity.
  - simpl. repeat split; reflexivity.
Qed.

(** X16. A text area holding only whitespace is not treated as empty by the
    button: with no file chosen, a click goes to the client, which refuses
    the text, and the page reports an unexpected error instead of the
    warning; nothing is sent. *)
Theorem process_click_blank_text
    (net : network) (api_client : ApiClient) (text_input doc_name_input : string)
    (w : Page) :
  text_input <> EmptyString ->
  all_chars isspace text_input = true ->
  let w' := on_process_click net api_client None text_input doc_name_input w in
  error (session_state w')
  = Some "Um erro inesperado ocorreu: Text content cannot be empty."
  /\ ui w' = (ui w ++ [StError "Erro inesperado: Text content cannot be empty."])%list
  /\ requests w' = requests w
  /\ results (session_state w') = None
  /\ history (session_state w') = history (session_state w).
Proof.
  intros Hne Hb w'. subst w'. unfold on_process_click.
  apply truthy_true in Hne. rewrite Hne.
  match goal with
  | |- context [process_data net api_client ?s ?n ?p] =>
      rewrite (process_data_raised net api_client s n p
                 (Exn ValueError "Text content cannot be empty.") (requests w))
  end.
  - repeat split; reflexivity.
  - apply (api_call_blank net api_client (TextSource text_input)). exact Hb.
Qed.

Lemma process_click_blank_text_witness :
  "  " <> EmptyString
  /\ all_chars isspace "  " = true
  /\ error (session_state (on_process_click down client0 None "  " "list" page0))
     = Some "Um erro inesperado ocorreu: Text content cannot be empty."
  /\ requests (on_process_click down client0 None "  " "list" page0) = [].
Proof.
  assert ("  " <> EmptyString) as Hne by discriminate.
  split; [exact Hne|]. split; [reflexivity|].
  destruct (process_click_blank_text down client0 "  " "list" page0 Hne eq_refl)
    as (He & _ & Hr & _).
  split; [exact He | exact Hr].
Defined.

Lemma handle_not_a_dict (r : Response) :
  400 <= status_code r < 600 ->
  dict_or_undecodable r = false ->
  exists m, _handle_response r = Raise (Exn AttributeError m).
Proof.
  intros Hs Hd. unfold _handle_response.
  replace (raise_for_status r) with true by (symmetry; apply raise_for_status_iff; lia).
  unfold on_http_error, error_message. unfold dict_or_undecodable in Hd.
  destruct (json_ r) as [[]|]; try discriminate Hd; eexists; reflexivity.
Qed.

Lemma health_click_raised (net : network) (api_client : ApiClient) (w : Page)
    (e : exn) (log : list Request) :
  health_check net api_client (requests w) = (Raise e, log) ->
  on_health_click net api_client w
  = if isinstance e ApiConnectionError then
      (None, {| session_state := session_state w;
                ui := (ui w ++ [StError api_unavailable])%list;
                requests := log |})
    else (Some e, {| session_state := session_state w; ui := ui w; requests := log |}).
Proof. intros H. unfold on_health_click. rewrite H. reflexivity. Qed.

(** X17. The health button catches [ApiConnectionError] only.  When the server
    answers with a 4xx or 5xx status (the body a JSON object or not JSON),
    and when the server cannot be reached at all, the exception leaves the
    handler and no message is shown. *)
Theorem health_click_lets_errors_escape
    (net : network) (api_client : ApiClient) (w : Page) :
  let quiet :=
    {| session_state := session_state w; ui := ui w;
       requests := (requests w ++ [health_request api_client])%list |} in
  (forall r,
     net (requests w) (health_request api_client) = Responds r ->
     400 <= status_code r < 600 ->
     dict_or_undecodable r = true ->
     exists e, _handle_response r = Raise e
               /\ on_health_click net api_client w = (Some e, quiet))
  /\ (forall reason,
        net (requests w) (health_request api_client) = Fails reason ->
        on_health_click net api_client w = (Some (Exn RequestException reason), quiet)).
Proof.
  intros quiet. subst quiet. split.
  - intros r Hnet Hs Hd.
    destruct (Z.ltb_spec (status_code r) 500) as [H5|H5].
    + eexists. split; [apply handle_4xx; [lia | exact Hd]|].
      rewrite (health_click_raised net api_client w
                 (Exn ApiValidationError
                    ("API Validation Error (" +:+ str_of_int (status_code r) +:+ "): "
                       +:+ spec_message r))
                 (requests w ++ [health_request api_client])%list).
      * reflexivity.
      * rewrite health_check_exchange, (exchange_responds _ _ _ _ Hnet).
        rewrite handle_4xx by (assumption || lia). reflexivity.
    + eexists. split; [apply handle_5xx; [lia | exact Hd]|].
      rewrite (health_click_raised net api_client w
                 (Exn ApiServerError
                    ("API Server Error (" +:+ str_of_int (status_code r) +:+ "): "
                       +:+ spec_message r))
                 (requests w ++ [health_request api_client])%list).
      * reflexivity.
      * rewrite health_check_exchange, (exchange_responds _ _ _ _ Hnet).
        rewrite handle_5xx by (assumption || lia). reflexivity.
  - intros reason Hnet.
    rewrite (health_click_raised net api_client w (Exn RequestException reason)
               (requests w ++ [health_request api_client])%list).
    + reflexivity.
    + rewrite health_check_exchange. apply exchange_fails. exact Hnet.
Qed.

(** X18. The message that the API is unavailable is shown exactly when the
    server did answer, with a status outside [400,600) and other than 204
    and a body that is not JSON. *)
Theorem health_click_unavailable_iff
    (net : network) (api_client : ApiClient) (w : Page) (r : Response) :
  net (requests w) (health_request api_client) = Responds r ->
  ui (snd (on_health_click net api_client w)) = (ui w ++ [StError api_unavailable])%list
  <-> (~ 400 <= status_code r < 600) /\ status_code r <> 204
      /\ exists m, json_ r = DecodeError m.
Proof.
  intros Hnet.
  assert (forall A (l : list A) (x y : A), (l ++ [x])%list = (l ++ [y])%list -> x = y)
    as Htail by (intros A l x y H; apply List.app_inj_tail in H; tauto).
  pose proof (health_check_exchange net api_client (requests w)) as Hh.
  rewrite (exchange_responds _ _ _ _ Hnet) in Hh.
  assert (forall e, _handle_response r = Raise e -> cls e <> ApiConnectionError ->
          ui (snd (on_health_click net api_client w)) <> (ui w ++ [StError api_unavailable])%list)
    as Hquiet.
  { intros [c m0] Er Hc. rewrite Er in Hh. rewrite (health_click_raised _ _ _ _ _ Hh).
    simpl in Hc. destruct c; try congruence; simpl; apply not_longer. }
  destruct (raise_for_status r) eqn:Hr.
  - apply raise_for_status_iff in Hr.
    split; [|intros [Hn _]; lia]. intros H. exfalso. revert H.
    destruct (dict_or_undecodable r) eqn:Hd.
    + destruct (Z.ltb_spec (status_code r) 500) as [H5|H5].
      * apply (Hquiet _ (handle_4xx r ltac:(lia) Hd)). discriminate.
      * apply (Hquiet _ (handle_5xx r ltac:(lia) Hd)). discriminate.
    + destruct (handle_not_a_dict r Hr Hd) as [m0 Hm].
      apply (Hquiet _ Hm). discriminate.
  - assert (~ 400 <= status_code r < 600) as Hn.
    { intros Hs. apply raise_for_status_iff in Hs. congruence. }
    rewrite (handle_other r Hr) in Hh.
    destruct (status_code r =? 204) eqn:E4.
    + split; [|intros (_ & H4 & _); lia].
      intros H. exfalso. unfold on_health_click in H. rewrite Hh in H.
      simpl in H. apply Htail in H. discriminate.
    + destruct (json_ r) as [v|m] eqn:Ej.
      * split; [|intros (_ & _ & m & Hm); discriminate].
        intros H. exfalso. unfold on_health_click in H. rewrite Hh in H.
        unfold get_or in H. destruct v; simpl in H;
          try (exact (not_longer _ _ H));
          apply Htail in H; discriminate.
      * rewrite (health_click_raised _ _ _ _ _ Hh). simpl.
        split; [intros _ | reflexivity].
        split; [exact Hn|]. split; [lia|]. exists m. reflexivity.
Qed.

Lemma health_click_unavailable_iff_witness :
  ui (snd (on_health_click (always not_modified_304) client0 page0))
  = (ui page0 ++ [StError api_unavailable])%list
  <-> (~ 400 <= status_code not_modified_304 < 600)
      /\ status_code not_modified_304 <> 204
      /\ exists m, json_ not_modified_304 = DecodeError m.
Proof.
  apply (health_click_unavailable_iff (always not_modified_304) client0 page0
           not_modified_304).
  reflexivity.
Defined.

(** X19. When response handling turns the answer into a dict, the health button
    shows the [status] and [timestamp] of the dict, each replaced by N/A
    when the dict does not have it; for a 204 both are N/A. *)
Theorem health_click_success
    (net : network) (api_client : ApiClient) (w : Page) (r : Response)
    (items : list (string * json)) :
  net (requests w) (health_request api_client) = Responds r ->
  _handle_response r = Return (JObject items) ->
  on_health_click net api_client w
  = (None,
     {| session_state := session_state w;
        ui := (ui w
               ++ [StSuccess
                     ("API Status: **"
                        +:+ py_str (default (JString "N/A") (dict_get "status" items))
                        +:+ "** - "
                        +:+ py_str (default (JString "N/A") (dict_get "timestamp" items)))])%list;
        requests := (requests w ++ [health_request api_client])%list |})
  /\ (status_code r = 204 ->
      ui (snd (on_health_click net api_client w))
      = (ui w ++ [StSuccess "API Status: **N/A** - N/A"])%list).
Proof.
  intros Hnet Hr.
  pose proof (health_check_exchange net api_client (requests w)) as Hh.
  rewrite (exchange_responds _ _ _ _ Hnet), Hr in Hh.
  assert (on_health_click net api_client w
          = (None,
             {| session_state := session_state w;
                ui := (ui w
                       ++ [StSuccess
                             ("API Status: **"
                                +:+ py_str (default (JString "N/A") (dict_get "status" items))
                                +:+ "** - "
                                +:+ py_str (default (JString "N/A")
                                              (dict_get "timestamp" items)))])%list;
                requests := (requests w ++ [health_request api_client])%list |})) as H.
  { unfold on_health_click. rewrite Hh. reflexivity. }
  split; [exact H|].
  intros H4. rewrite (handle_204 r H4) in Hr. inversion Hr. subst items.
  rewrite H. reflexivity.
Qed.

Lemma health_click_success_witness :
  on_health_click (always health_ok_200) client0 page0
  = (None,
     {| session_state := session_state page0;
        ui := [StSuccess "API Status: **ok** - T"];
        requests := [health_request client0] |}).
Proof.
  exact (proj1 (health_click_success (always health_ok_200) client0 page0 health_ok_200
                  _ eq_refl eq_refl)).
Defined.

(** X20. The time kept in the session never moves once it is set: with
    [current_time] a non-empty string, the last statement of the script
    leaves the session state as it is whatever the clock reads, a click on
    the button keeps it too, and every entry the click appends to the
    history carries that same time. *)
Theorem current_time_is_frozen
    (net : network) (api_client : ApiClient) (uploaded_file : option UploadedFile)
    (text_input doc_name_input now t : string) (w : Page) :
  current_time (session_state w) = Some t ->
  t <> EmptyString ->
  let w' := on_process_click net api_client uploaded_file text_input doc_name_input w in
  refresh_current_time now (session_state w) = session_state w
  /\ current_time (session_state w') = Some t
  /\ current_time (refresh_current_time now (session_state w')) = Some t
  /\ (forall entry,
        history (session_state w') = (history (session_state w) ++ [entry])%list ->
        timestamp entry = t).
Proof.
  intros Hc Hne w'.
  assert (truthy t = true) as Ht by (apply truthy_true; exact Hne).
  assert (current_time (session_state w') = Some t) as Hc'.
  { subst w'. unfold on_process_click. rewrite Hc. simpl.
    destruct uploaded_file as [f|]; [|destruct (truthy text_input)];
      try reflexivity;
      match goal with
      | |- context [process_data net api_client ?s ?n ?p] =>
          destruct (api_call net api_client s n (requests p)) as [[res|e] log] eqn:E;
          [rewrite (process_data_returned _ _ _ _ _ _ _ E);
           destruct (history_entry (session_state p) s n res); reflexivity
          |rewrite (process_data_raised _ _ _ _ _ _ _ E); reflexivity]
      end. }
  split; [|split; [exact Hc'|split]].
  - unfold refresh_current_time. rewrite Hc. simpl. rewrite Ht.
    destruct (session_state w). simpl in *. congruence.
  - unfold refresh_current_time. rewrite Hc'. simpl. rewrite Ht. reflexivity.
  - intros entry. subst w'. unfold on_process_click. rewrite Hc. simpl.
    destruct uploaded_file as [f|]; [|destruct (truthy text_input)].
    + intros H. exact (process_data_appended net api_client _ _ _ entry H).
    + intros H. exact (process_data_appended net api_client _ _ _ entry H).
    + simpl. intros H. exfalso. exact (not_longer _ _ H).
Qed.

Lemma current_time_is_frozen_witness :
  refresh_current_time "2030-01-01 00:00:00" (session_state page0) = session_state page0
  /\ current_time
       (session_state (on_process_click (always two_tasks_200) client0 (Some notes_file)
                         EmptyString EmptyString page0))
     = Some "2024-05-01 10:00:00".
Proof.
  assert ("2024-05-01 10:00:00" <> EmptyString) as Hne by discriminate.
  destruct (current_time_is_frozen (always two_tasks_200) client0 (Some notes_file)
              EmptyString EmptyString "2030-01-01 00:00:00" "2024-05-01 10:00:00"
              page0 eq_refl Hne) as (H1 & H2 & _).
  split; [exact H1 | exact H2].
Defined.

(** ** The session beneath a call: what the retry policy does *)

(** The fuel of [urlopen] is enough as soon as it covers the retries left. *)
Lemma urlopen_fuel (retry : Retry) (srv : nat -> wire_outcome) (method : string)
    (f1 f2 : nat) :
  forall (total : Z) (k : nat),
    (Z.to_nat total <= f1)%nat -> (Z.to_nat total <= f2)%nat ->
    urlopen f1 retry srv method total k = urlopen f2 retry srv method total k.
Proof.
  revert f2. induction f1 as [|f1 IH]; intros f2 total k H1 H2.
  - destruct f2 as [|f2]; [reflexivity|]. simpl.
    replace (total - 1 <? 0) with true by lia.
    destruct (srv k) as [r ra|reading reason]; reflexivity.
  - destruct f2 as [|f2]; simpl.
    + replace (total - 1 <? 0) with true by lia.
      destruct (srv k) as [r ra|reading reason]; reflexivity.
    + destruct (total - 1 <? 0) eqn:E.
      * destruct (srv k) as [r ra|reading reason]; reflexivity.
      * rewrite (IH f2 (total - 1) (S k)) by lia. reflexivity.
Qed.

(** A request whose method is not retried (a POST) is attempted once when
    the server answers: the answer is delivered whatever its status, and
    nothing is waited for. *)
Lemma urlopen_not_retryable (retry : Retry) (srv : nat -> wire_outcome)
    (method : string) (fuel : nat) (total : Z) (k : nat) (r : Response)
    (ra : option Z) :
  is_method_retryable method = false ->
  srv k = Answers r ra ->
  urlopen fuel retry srv method total k = (Responds r, []).
Proof.
  intros Hm Hs. destruct fuel; simpl; rewrite Hs; unfold is_retry; rewrite Hm; reflexivity.
Qed.

(** The request is issued again at most as many times as there is fuel, so
    with [adapter_send] at most [total] times. *)
Lemma urlopen_reissues (retry : Retry) (srv : nat -> wire_outcome) (method : string)
    (fuel : nat) :
  forall (total : Z) (k : nat),
    (List.length (snd (urlopen fuel retry srv method total k)) <= fuel)%nat.
Proof.
  induction fuel as [|fuel IH]; intros total k; simpl.
  - destruct (srv k) as [r ra|reading reason].
    + destruct (is_retry _ _ _ _ _); [destruct (total - 1 <? 0)|]; simpl; lia.
    + destruct (reading && negb (is_method_retryable method));
        [|destruct (total - 1 <? 0)]; simpl; lia.
  - specialize (IH (total - 1) (S k)).
    destruct (urlopen fuel retry srv method (total - 1) (S k)) as [o ds].
    simpl in IH.
    destruct (srv k) as [r ra|reading reason].
    + destruct (is_retry _ _ _ _ _); [destruct (total - 1 <? 0)|]; simpl; lia.
    + destruct (reading && negb (is_method_retryable method));
        [|destruct (total - 1 <? 0)]; simpl; lia.
Qed.

(** A request whose method is retried (a GET) is never delivered an answer
    whose status is in the list of the policy. *)
Lemma urlopen_never_forced (retry : Retry) (srv : nat -> wire_outcome)
    (method : string) (fuel : nat) :
  is_method_retryable method = true ->
  forall (total : Z) (k : nat) (r : Response) (delays : list Z),
    urlopen fuel retry srv method total k = (Responds r, delays) ->
    bool_decide (status_code r ∈ status_forcelist retry) = false.
Proof.
  intros Hm. induction fuel as [|fuel IH]; intros total k r delays; simpl.
  - destruct (srv k) as [r0 ra|reading reason].
    + destruct (is_retry _ _ _ _ _) eqn:Er.
      * destruct (total - 1 <? 0); discriminate.
      * intros H. inversion H. subst r0. unfold is_retry in Er. rewrite Hm in Er.
        simpl in Er. destruct (bool_decide (status_code r ∈ status_forcelist retry));
          [discriminate | reflexivity].
    + destruct (reading && negb (is_method_retryable method));
        [|destruct (total - 1 <? 0)]; discriminate.
  - specialize (IH (total - 1) (S k)).
    destruct (urlopen fuel retry srv method (total - 1) (S k)) as [o ds].
    destruct (srv k) as [r0 ra|reading reason].
    + destruct (is_retry _ _ _ _ _) eqn:Er.
      * destruct (total - 1 <? 0); [discriminate|].
        intros H. inversion H. subst o. eapply IH. reflexivity.
      * intros H. inversion H. subst r0. unfold is_retry in Er. rewrite Hm in Er.
        simpl in Er. destruct (bool_decide (status_code r ∈ status_forcelist retry));
          [discriminate | reflexivity].
    + destruct (reading && negb (is_method_retryable method));
        [discriminate|].
      destruct (total - 1 <? 0); [discriminate|].
      intros H. inversion H. subst o. eapply IH. reflexivity.
Qed.

(** So the session built on one policy hands the health check, a GET, no
    response whose status is in the list of that policy. *)
Lemma session_never_delivers_forced (retry : Retry) (srv : wire) (self : ApiClient)
    (log : list Request) (r : Response) :
  session_with retry srv log (health_request self) = Responds r ->
  bool_decide (status_code r ∈ status_forcelist retry) = false.
Proof.
  unfold session_with, adapter_send. intros H.
  destruct (urlopen (Z.to_nat (total retry)) retry (srv log (health_request self))
              (method (health_request self)) (total retry) 0) as [o ds] eqn:E.
  simpl in H. subst o.
  apply (urlopen_never_forced retry (srv log (health_request self)) "GET"
           (Z.to_nat (total retry)) eq_refl (total retry) O r ds).
  exact E.
Qed.

(** While a POST is handed to the wire once: the upload and the text
    submission get the first answer, whatever its status. *)
Lemma session_post_first_answer (retry : Retry) (srv : wire) (log : list Request)
    (req : Request) (r : Response) (ra : option Z) :
  method req = "POST" ->
  srv log req O = Answers r ra ->
  session_with retry srv log req = Responds r
  /\ snd (adapter_send retry (srv log req) (method req)) = [].
Proof.
  intros Hm Hs. unfold session_with, adapter_send. rewrite Hm.
  rewrite (urlopen_not_retryable retry (srv log req) "POST" _ _ _ r ra eq_refl Hs).
  split; reflexivity.
Qed.

(** C6, at failing inputs. With the policy [__init__] mounts and 3 retries:
    an upload, a POST, to a server that is busy once and would answer the
    next attempt with 200 is attempted once only and ends in an
    [ApiServerError] for the 503; a health check, a GET, to a server that
    stays busy is issued again 3 times, after waits of 0, 2 and 4 seconds,
    and then the session raises: the last 503 never reaches response
    handling, and the exception is none of the three errors of the
    client. *)
Theorem retries_on_busy_server :
  List.map snd (adapters client0) = [retry0; retry0]
  /\ adapter_send retry0
       (busy_once [] (upload_request client0 [Byte.x68; Byte.x69] "notes.txt")) "POST"
     = (Responds busy_503, [])
  /\ upload_file (session_with retry0 busy_once) client0 [Byte.x68; Byte.x69]
       "notes.txt" []
     = (Raise (Exn ApiServerError "API Server Error (503): busy"),
        [upload_request client0 [Byte.x68; Byte.x69] "notes.txt"])
  /\ exists reason : string,
       adapter_send retry0 (always_busy [] (health_request client0)) "GET"
       = (Fails reason, [0; 2; 4])
       /\ health_check (session_with retry0 always_busy) client0 []
          = (Raise (Exn RequestException reason), [health_request client0])
       /\ api_error (Known (Exn RequestException reason)) = false.
Proof.
  split; [reflexivity|]. split; [reflexivity|]. split; [reflexivity|].
  exists (too_many 503). split; [reflexivity|]. split; reflexivity.
Qed.

Lemma adapter_send_reissues (retry : Retry) (srv : nat -> wire_outcome)
    (method : string) :
  (List.length (snd (adapter_send retry srv method)) <= Z.to_nat (total retry))%nat.
Proof. apply urlopen_reissues. Qed.

(** For a client whose adapters all carry one policy, a response that the
    session delivers to the health check has a status that no adapter
    retries on. *)
Lemma session_delivers_unforced (retry : Retry) (srv : wire) (self : ApiClient)
    (log : list Request) (r : Response) :
  List.Forall (fun mount => snd mount = retry) (adapters self) ->
  session_with retry srv log (health_request self) = Responds r ->
  forced_status self (status_code r) = false.
Proof.
  intros Hall H. apply session_never_delivers_forced in H.
  unfold forced_status. induction Hall as [|mount rest Hm _ IH]; simpl.
  - reflexivity.
  - rewrite Hm, H. exact IH.
Qed.
